(** * code-server entry point: instance arbitration and delegation

    A shallow embedding of [src/node/entry.ts]: the arbitrator [entry], the
    existing-instance probe [shouldOpenInExistingInstance], the delegator
    [openInExistingInstance] and the CLI delegate [runVsCodeCli].

    The process is modelled as a computation that appends to a trace of
    observable effects, may register event listeners, and ends by returning,
    by throwing, or by [process.exit].  What Node and the operating system
    decide (environment variables, the file system, the modules of the
    repository that are imported by the entry point) is collected in a
    [World]; what happens after the synchronous code has run (messages of
    the forked child, socket errors, response data) is a list of
    [AsyncEvent]s handed to the listeners that are registered then.

    [ipcMain] and [WrapperProcess] belong to other modules, and [main] runs
    in the child only: to the arbitrator a call to one of them is an event
    of the trace whose result the world gives.  What [main] itself does is
    modelled in [Server].
    The handler attached to [entry()] passes a rejection on to
    [ipcMain.exit]; a rejected entry point is the outcome [Thrown] here.
    Structured fields of log lines do not influence control flow and are
    left out of [Log]. *)

From Stdlib Require Import String List ZArith Bool Lia.
Import ListNotations.
Local Open Scope string_scope.
Local Open Scope Z_scope.

(** ** Data *)

(** The part of [Args] (declared in [./cli]) that the entry point reads.
    A flag is [None] when the property is undefined. *)
Record Args : Type := mkArgs {
  args_ : list string;                          (* args._ *)
  help : option bool;
  version_flag : option bool;                   (* args.version *)
  json : option bool;
  list_extensions : option bool;                (* args["list-extensions"] *)
  install_extension : option (list string);     (* args["install-extension"] *)
  uninstall_extension : option (list string);   (* args["uninstall-extension"] *)
  reuse_window : option bool;                   (* args["reuse-window"] *)
  new_window : option bool                      (* args["new-window"] *)
}.

(** [OpenCommandPipeArgs & { fileURIs: string[] }] *)
Record PipeArgs : Type := mkPipeArgs {
  pipe_type : string;
  folderURIs : list string;
  fileURIs : list string;
  forceReuseWindow : option bool;
  forceNewWindow : option bool
}.

(** [CliMessage] *)
Record CliMessage : Type := mkCliMessage {
  cli_type : string;
  cli_args : Args
}.

(** Values a property read can give on a message that arrived over the
    fork channel. *)
Inductive JsVal : Type :=
| JUndefined
| JNull
| JBool (b : bool)
| JNum (n : Z)
| JStr (s : string).

(** A message received from the forked process ([message: any]).  Reading
    [.type] of [null] throws; every other message yields a value, which is
    [JUndefined] when the property is missing. *)
Inductive IpcMessage : Type :=
| MsgNull
| MsgWith (type : JsVal).

(** JavaScript truthiness of the values that are tested. *)
Definition truthy (flag : option bool) : bool :=
  match flag with Some true => true | _ => false end.

Definition truthy_array {A : Type} (a : option (list A)) : bool :=
  match a with Some _ => true | None => false end.

Definition truthy_string (s : option string) : bool :=
  match s with
  | Some EmptyString => false
  | Some _ => true
  | None => false
  end.

(** [v !== "ready"] *)
Definition not_ready (v : JsVal) : bool :=
  match v with
  | JStr s => negb (String.eqb s "ready")
  | _ => true
  end.

(** [code || 0] for [code : number | null] *)
Definition code_or_0 (code : option Z) : Z :=
  match code with Some c => c | None => 0 end.

(** ** Observable effects *)

Inductive Level : Type := Debug | Info | Warn | Error.

Inductive ConsoleArg : Type :=
| CStr (s : string)
| CObj (fields : list (string * string)).

Inductive Event : Type :=
| Log (lvl : Level) (msg : string)              (* logger.<lvl>(msg, ...fields) *)
| ConsoleLog (line : list ConsoleArg)           (* console.log(...line) *)
| EnvLookup (name : string)                     (* process.env[name] *)
| FsStat (path : string)                        (* fs.stat(path) *)
| Fork (modulePath : string) (env : string -> option string)
                                                (* cp.fork(modulePath, [], { env }) *)
| ChildSend (m : CliMessage)                    (* vscode.send(m) *)
| HttpRequest (socketPath path method : string) (* http.request({...}) *)
| HttpWrite (payload : string)                  (* vscode.write(payload) *)
| HttpEnd                                       (* vscode.end() *)
| IpcHandshake                                  (* ipcMain.handshake() *)
| PreventExit                                   (* ipcMain.preventExit() *)
| RunMain (args cliArgs configArgs : Args)      (* main(args, cliArgs, configArgs) *)
| WrapperStart (version : option string)        (* new WrapperProcess(v).start() *)
| UnhandledRejection (err : string)
| UncaughtException (err : string)
| ProcessExit (code : Z).                       (* process.exit(code) *)

(** ** Listeners *)

(** The listeners the entry point can have registered: those of
    [runVsCodeCli] on the forked process and those of
    [openInExistingInstance] on its request. *)
Record Listeners : Type := mkListeners {
  vscode_message_once : option Args;  (* vscode.once("message", ...), closed over args *)
  vscode_error_once : bool;           (* vscode.once("error", ...) *)
  vscode_exit : bool;                 (* vscode.on("exit", ...) *)
  request_response : bool;            (* response.on("data", ...) *)
  request_error : bool                (* vscode.on("error", ...) on the request *)
}.

Definition no_listeners : Listeners := mkListeners None false false false false.

(** ** The effect monad *)

Inductive Outcome (A : Type) : Type :=
| Returned (a : A)
| Thrown (err : string)
| Exited (code : Z).

Arguments Returned {A} a.
Arguments Thrown {A} err.
Arguments Exited {A} code.

Record Result (A : Type) : Type := mkResult {
  trace : list Event;
  outcome : Outcome A;
  listeners : Listeners
}.

Arguments mkResult {A} _ _ _.
Arguments trace {A} _.
Arguments outcome {A} _.
Arguments listeners {A} _.

Definition Eff (A : Type) : Type := Listeners -> Result A.

Definition ret {A : Type} (a : A) : Eff A :=
  fun l => mkResult [] (Returned a) l.

Definition bind {A B : Type} (m : Eff A) (f : A -> Eff B) : Eff B :=
  fun l =>
    let r := m l in
    match outcome r with
    | Returned a =>
        let r' := f a (listeners r) in
        mkResult (trace r ++ trace r') (outcome r') (listeners r')
    | Thrown e => mkResult (trace r) (Thrown e) (listeners r)
    | Exited c => mkResult (trace r) (Exited c) (listeners r)
    end.

Declare Scope eff_scope.
Delimit Scope eff_scope with eff.
Notation "x <- m ;; k" := (bind m (fun x => k))
  (at level 61, m at next level, right associativity) : eff_scope.
Notation "m ;; k" := (bind m (fun _ => k))
  (at level 61, right associativity) : eff_scope.
Local Open Scope eff_scope.

Definition emit (e : Event) : Eff unit :=
  fun l => mkResult [e] (Returned tt) l.

Definition throw {A : Type} (err : string) : Eff A :=
  fun l => mkResult [] (Thrown err) l.

(** [process.exit(code)]: the process ends, nothing after it runs. *)
Definition process_exit {A : Type} (code : Z) : Eff A :=
  fun l => mkResult [ProcessExit code] (Exited code) l.

Definition when (b : bool) (m : Eff unit) : Eff unit :=
  if b then m else ret tt.

Definition register (f : Listeners -> Listeners) : Eff unit :=
  fun l => mkResult [] (Returned tt) (f l).

(** A call to an async function whose promise is dropped: the caller goes
    on, a rejection is nobody's to catch. *)
Definition detached {A : Type} (m : Eff A) : Eff unit :=
  fun l =>
    let r := m l in
    match outcome r with
    | Returned _ => mkResult (trace r) (Returned tt) (listeners r)
    | Thrown e =>
        mkResult (trace r ++ [UnhandledRejection e]) (Returned tt) (listeners r)
    | Exited c => mkResult (trace r) (Exited c) (listeners r)
    end.

(** A listener that throws is an uncaught exception: Node prints it and
    exits with code 1. *)
Definition uncaught (m : Eff unit) : Eff unit :=
  fun l =>
    let r := m l in
    match outcome r with
    | Thrown e =>
        mkResult (trace r ++ [UncaughtException e; ProcessExit 1])
                 (Exited 1) (listeners r)
    | _ => r
    end.

(** ** The world outside the entry point *)

(** [package.json] as far as it is read. *)
Record Pkg : Type := mkPkg {
  pkg_version : option string;
  pkg_commit : option string
}.

Record World : Type := mkWorld {
  process_env : string -> option string;
  process_pid : string;                       (* process.pid.toString() *)
  dirname : string;                           (* __dirname *)
  path_resolve : list string -> string;       (* path.resolve(...segments) *)
  fs_stat : string -> option bool;            (* None: rejects; Some d: isDirectory() *)
  JSON_stringify : PipeArgs -> string;
  package_json : option Pkg;                  (* require("../../package.json") *)
  vscode_package_version : option string;     (* require("../../lib/vscode/package.json").version *)
  parsed : string + (Args * Args * Args);     (* tryParse(): rejection or [args, cliArgs, configArgs] *)
  optionDescriptions : list string;
  isChild : bool;                             (* ipcMain.isChild *)
  handshake_rejects : option string;          (* ipcMain.handshake() *)
  main_rejects : option string;               (* main(...) *)
  wrapper_start_rejects : option string       (* wrapper.start() *)
}.

(** [let pkg = {}; try { pkg = require("../../package.json") } catch ...] *)
Definition pkg (w : World) : Pkg :=
  match package_json w with
  | Some p => p
  | None => mkPkg None None
  end.

Definition or_development (s : option string) : string :=
  if truthy_string s then match s with Some v => v | None => "development" end
  else "development".

Definition version (w : World) : string := or_development (pkg_version (pkg w)).
Definition commit (w : World) : string := or_development (pkg_commit (pkg w)).

(** ** The CLI delegate *)

Definition shouldRunVsCodeCli (args : Args) : bool :=
  truthy (list_extensions args)
  || truthy_array (install_extension args)
  || truthy_array (uninstall_extension args).

(** [{ ...process.env, CODE_SERVER_PARENT_PID: process.pid.toString() }]:
    the whole environment of the parent, with one variable set on top. *)
Definition fork_env (w : World) : string -> option string :=
  fun name =>
    if String.eqb name "CODE_SERVER_PARENT_PID" then Some (process_pid w)
    else process_env w name.

Definition runVsCodeCli (w : World) (args : Args) : Eff unit :=
  emit (Log Debug "forking vs code cli...") ;;
  emit (Fork (path_resolve w [dirname w; "../../lib/vscode/out/vs/server/fork"])
             (fork_env w)) ;;
  register (fun l => mkListeners (Some args) true true
                                 (request_response l) (request_error l)).

(** [message.type] *)
Definition message_type (message : IpcMessage) : Eff JsVal :=
  match message with
  | MsgNull => throw "TypeError: Cannot read property 'type' of null"
  | MsgWith t => ret t
  end.

(** The body of [vscode.once("message", ...)]. *)
Definition vscode_on_message (args : Args) (message : IpcMessage) : Eff unit :=
  emit (Log Debug "got message from VS Code") ;;
  t <- message_type message ;;
  when (not_ready t)
       (emit (Log Error "Unexpected response waiting for ready response") ;;
        process_exit 1) ;;
  emit (ChildSend (mkCliMessage "cli" args)).

(** The body of [vscode.once("error", ...)]. *)
Definition vscode_on_error (error : string) : Eff unit :=
  emit (Log Error "Got error from VS Code") ;;
  process_exit 1.

(** The body of [vscode.on("exit", ...)]. *)
Definition vscode_on_exit (code : option Z) : Eff unit :=
  process_exit (code_or_0 code).

(** ** The existing-instance probe *)

Definition getenv (w : World) (name : string) : Eff (option string) :=
  emit (EnvLookup name) ;;
  ret (process_env w name).

Definition shouldOpenInExistingInstance (w : World) (args : Args)
  : Eff (option string) :=
  hook <- getenv w "VSCODE_IPC_HOOK_CLI" ;;
  if truthy_string hook then getenv w "VSCODE_IPC_HOOK_CLI"
  else ret None.

(** ** The existing-instance delegator *)

(** What the local [isDir] answers: a failing [fs.stat] is caught and
    counts as "not a directory". *)
Definition is_directory (w : World) (path : string) : bool :=
  match fs_stat w path with
  | Some d => d
  | None => false
  end.

Definition isDir (w : World) (path : string) : Eff bool :=
  emit (FsStat path) ;;
  ret (is_directory w path).

Definition push_folder (p : PipeArgs) (fp : string) : PipeArgs :=
  mkPipeArgs (pipe_type p) (folderURIs p ++ [fp]) (fileURIs p)
             (forceReuseWindow p) (forceNewWindow p).

Definition push_file (p : PipeArgs) (fp : string) : PipeArgs :=
  mkPipeArgs (pipe_type p) (folderURIs p) (fileURIs p ++ [fp])
             (forceReuseWindow p) (forceNewWindow p).

(** [for (let i = 0; i < args._.length; i++) { ... }], on the paths that
    are left to visit. *)
Fixpoint classify_paths (w : World) (paths : list string) (pipeArgs : PipeArgs)
  : Eff PipeArgs :=
  match paths with
  | [] => ret pipeArgs
  | p :: rest =>
      let fp := path_resolve w [p] in
      d <- isDir w fp ;;
      if d then classify_paths w rest (push_folder pipeArgs fp)
      else classify_paths w rest (push_file pipeArgs fp)
  end.

Definition initial_pipeArgs (args : Args) : PipeArgs :=
  mkPipeArgs "open" [] [] (reuse_window args) (new_window args).

Definition openInExistingInstance (w : World) (args : Args) (socketPath : string)
  : Eff bool :=
  pipeArgs <- classify_paths w (args_ args) (initial_pipeArgs args) ;;
  when (truthy (forceNewWindow pipeArgs)
        && (0 <? Z.of_nat (length (fileURIs pipeArgs))))
       (emit (Log Error "--new-window can only be used with folder paths") ;;
        process_exit 1) ;;
  when ((Z.of_nat (length (folderURIs pipeArgs)) =? 0)
        && (Z.of_nat (length (fileURIs pipeArgs)) =? 0))
       (emit (Log Error "Please specify at least one file or folder") ;;
        process_exit 1) ;;
  emit (HttpRequest socketPath "/" "POST") ;;
  register (fun l => mkListeners (vscode_message_once l) (vscode_error_once l)
                                 (vscode_exit l) true true) ;;
  emit (HttpWrite (JSON_stringify w pipeArgs)) ;;
  emit HttpEnd ;;
  ret true.

(** The callback of [response.on("data", ...)]. *)
Definition request_on_data (message : string) : Eff unit :=
  emit (Log Debug "got message from VS Code").

(** The callback of [vscode.on("error", ...)] on the request. *)
Definition request_on_error (error : string) : Eff unit :=
  emit (Log Error "got error from VS Code").

(** ** The arbitrator *)

Definition tryParse (w : World) : Eff (Args * Args * Args) :=
  match parsed w with
  | inl err => throw err
  | inr r => ret r
  end.

(** A call into another module of the repository: it shows in the trace
    and resolves or rejects as the world says. *)
Definition external (e : Event) (rejects : option string) : Eff unit :=
  emit e ;;
  match rejects with
  | Some err => throw err
  | None => ret tt
  end.

Definition main (w : World) (args cliArgs configArgs : Args) : Eff unit :=
  external (RunMain args cliArgs configArgs) (main_rejects w).

Definition print_help (w : World) : Eff unit :=
  emit (ConsoleLog [CStr "code-server"; CStr (version w); CStr (commit w)]) ;;
  emit (ConsoleLog [CStr ""]) ;;
  emit (ConsoleLog [CStr "Usage: code-server [options] [path]"]) ;;
  emit (ConsoleLog [CStr ""]) ;;
  emit (ConsoleLog [CStr "Options"]) ;;
  fold_right (fun description k => emit (ConsoleLog [CStr ""; CStr description]) ;; k)
             (ret tt) (optionDescriptions w).

Definition print_version (w : World) (args : Args) : Eff unit :=
  if truthy (json args) then
    match vscode_package_version w with
    | Some v =>
        emit (ConsoleLog [CObj [("codeServer", version w);
                                ("commit", commit w);
                                ("vscode", v)]])
    | None => throw "Cannot find module '../../lib/vscode/package.json'"
    end
  else emit (ConsoleLog [CStr (version w); CStr (commit w)]).

Definition start_wrapper (w : World) : Eff unit :=
  match package_json w with
  | Some p =>
      external (WrapperStart (pkg_version p)) (wrapper_start_rejects w)
  | None => throw "Cannot find module '../../package.json'"
  end.

Definition entry (w : World) : Eff unit :=
  parsed_args <- tryParse w ;;
  let '(args, cliArgs, configArgs) := parsed_args in
  if isChild w then
    external IpcHandshake (handshake_rejects w) ;;
    emit PreventExit ;;
    main w args cliArgs configArgs
  else if truthy (help args) then print_help w
  else if truthy (version_flag args) then print_version w args
  else if shouldRunVsCodeCli args then runVsCodeCli w args
  else
    socketPath <- shouldOpenInExistingInstance w args ;;
    if truthy_string socketPath then
      match socketPath with
      | Some sock => detached (openInExistingInstance w args sock)
      | None => ret tt
      end
    else start_wrapper w.

(** ** After the synchronous part: the event loop *)

Inductive AsyncEvent : Type :=
| ChildMessage (message : IpcMessage)   (* "message" on the forked process *)
| ChildError (error : string)           (* "error" on the forked process *)
| ChildExit (code : option Z)           (* "exit" on the forked process *)
| ResponseData (message : string)       (* "data" on the response *)
| RequestError (error : string).        (* "error" on the request *)

(** One event is handed to the listener registered for it, if any; a
    [once] listener is removed before it runs.  An "error" event nobody
    listens to is thrown by the emitter. *)
Definition deliver (ev : AsyncEvent) : Eff unit :=
  fun l =>
    match ev with
    | ChildMessage message =>
        match vscode_message_once l with
        | Some args =>
            vscode_on_message args message
              (mkListeners None (vscode_error_once l) (vscode_exit l)
                           (request_response l) (request_error l))
        | None => ret tt l
        end
    | ChildError error =>
        if vscode_error_once l then
          vscode_on_error error
            (mkListeners (vscode_message_once l) false (vscode_exit l)
                         (request_response l) (request_error l))
        else throw error l
    | ChildExit code =>
        if vscode_exit l then vscode_on_exit code l else ret tt l
    | ResponseData message =>
        if request_response l then request_on_data message l else ret tt l
    | RequestError error =>
        if request_error l then request_on_error error l else throw error l
    end.

Fixpoint event_loop (evs : list AsyncEvent) : Eff unit :=
  match evs with
  | [] => ret tt
  | ev :: rest => uncaught (deliver ev) ;; event_loop rest
  end.

(** One process: the entry point, then the events that arrive. *)
Definition run (w : World) (evs : list AsyncEvent) : Result unit :=
  (entry w ;; event_loop evs) no_listeners.

(** ** Reading traces *)

Definition is_socket_io (e : Event) : bool :=
  match e with
  | HttpRequest _ _ _ | HttpWrite _ | HttpEnd => true
  | _ => false
  end.

Definition is_http_write (e : Event) : bool :=
  match e with HttpWrite _ => true | _ => false end.

Definition is_child_send (e : Event) : bool :=
  match e with ChildSend _ => true | _ => false end.

Definition is_wrapper_start (e : Event) : bool :=
  match e with WrapperStart _ => true | _ => false end.

(** The steps of the arbitrator that a child-role process, [--help] and
    [--version] leave out: forking the CLI, probing, delegating, starting a
    server. *)
Definition is_arbitration_step (e : Event) : bool :=
  match e with
  | Fork _ _ | ChildSend _ | EnvLookup _ | FsStat _
  | HttpRequest _ _ _ | HttpWrite _ | HttpEnd
  | WrapperStart _ => true
  | _ => false
  end.

Definition is_console_log (e : Event) : bool :=
  match e with ConsoleLog _ => true | _ => false end.

Definition count_events (p : Event -> bool) (t : list Event) : nat :=
  length (filter p t).

(** The resolved positional paths, and the two lists the spec describes:
    the directories among them and the rest, each in positional order. *)
Definition resolved_paths (w : World) (args : Args) : list string :=
  map (fun p => path_resolve w [p]) (args_ args).

Definition spec_folderURIs (w : World) (args : Args) : list string :=
  filter (is_directory w) (resolved_paths w args).

Definition spec_fileURIs (w : World) (args : Args) : list string :=
  filter (fun fp => negb (is_directory w fp)) (resolved_paths w args).

Definition spec_pipeArgs (w : World) (args : Args) : PipeArgs :=
  mkPipeArgs "open" (spec_folderURIs w args) (spec_fileURIs w args)
             (reuse_window args) (new_window args).

(** The two precondition tests of the delegator, on the lists the spec
    describes, and the listeners it leaves behind. *)
Definition with_request (l : Listeners) : Listeners :=
  mkListeners (vscode_message_once l) (vscode_error_once l) (vscode_exit l)
              true true.

Definition new_window_with_files (w : World) (args : Args) : bool :=
  truthy (new_window args)
  && (0 <? Z.of_nat (length (spec_fileURIs w args))).

Definition nothing_to_open (w : World) (args : Args) : bool :=
  (Z.of_nat (length (spec_folderURIs w args)) =? 0)
  && (Z.of_nat (length (spec_fileURIs w args)) =? 0).


(** ** Reading event lists *)

Definition is_ready_message (ev : AsyncEvent) : bool :=
  match ev with
  | ChildMessage (MsgWith t) => negb (not_ready t)
  | _ => false
  end.

(** The forked process sent a ReadyMessage at some point. *)
Definition sent_ready (evs : list AsyncEvent) : bool :=
  existsb is_ready_message evs.

Definition is_child_event (ev : AsyncEvent) : bool :=
  match ev with
  | ChildMessage _ | ChildError _ | ChildExit _ => true
  | _ => false
  end.

Definition is_request_event (ev : AsyncEvent) : bool :=
  match ev with
  | ResponseData _ | RequestError _ => true
  | _ => false
  end.

(** What the request's listeners write for an event. *)
Definition request_log (ev : AsyncEvent) : list Event :=
  match ev with
  | ResponseData _ => [Log Debug "got message from VS Code"]
  | RequestError _ => [Log Error "got error from VS Code"]
  | _ => []
  end.

(** The invocation takes the CLI-delegate branch of [entry]. *)
Definition cli_branch (w : World) (args cliArgs configArgs : Args) : Prop :=
  parsed w = inr (args, cliArgs, configArgs)
  /\ isChild w = false
  /\ truthy (help args) = false
  /\ truthy (version_flag args) = false
  /\ shouldRunVsCodeCli args = true.

(** The invocation takes the delegation branch of [entry], to [socketPath]. *)
Definition delegation_branch (w : World) (args cliArgs configArgs : Args)
           (socketPath : string) : Prop :=
  parsed w = inr (args, cliArgs, configArgs)
  /\ isChild w = false
  /\ truthy (help args) = false
  /\ truthy (version_flag args) = false
  /\ shouldRunVsCodeCli args = false
  /\ process_env w "VSCODE_IPC_HOOK_CLI" = Some socketPath
  /\ socketPath <> "".

Definition listeners_after_fork (args : Args) : Listeners :=
  mkListeners (Some args) true true false false.

Definition usage (w : World) : list Event :=
  [ConsoleLog [CStr "code-server"; CStr (version w); CStr (commit w)];
   ConsoleLog [CStr ""];
   ConsoleLog [CStr "Usage: code-server [options] [path]"];
   ConsoleLog [CStr ""];
   ConsoleLog [CStr "Options"]]
  ++ map (fun description => ConsoleLog [CStr ""; CStr description])
         (optionDescriptions w).

(** ** Sentences of the spec and of the claims, as they are written *)

(** "A CLI-delegate subprocess that exits without ever sending ReadyMessage
    causes the parent to exit with code 1." *)
Definition exit_without_ready_is_code_1 : Prop :=
  forall (w : World) (args cliArgs configArgs : Args)
         (evs : list AsyncEvent) (code : option Z),
    cli_branch w args cliArgs configArgs ->
    sent_ready evs = false ->
    In (ChildExit code) evs ->
    outcome (run w evs) = Exited 1.

(** "Any transport-level error is reported as DelegationFailed and the
    caller falls back to starting a new instance (no exception escapes to
    the caller)." *)
Definition transport_error_starts_new_instance : Prop :=
  forall (w : World) (args cliArgs configArgs : Args) (socketPath : string)
         (evs : list AsyncEvent) (error : string),
    delegation_branch w args cliArgs configArgs socketPath ->
    new_window_with_files w args = false ->
    nothing_to_open w args = false ->
    In (RequestError error) evs ->
    outcome (openInExistingInstance w args socketPath no_listeners)
      = Returned false
    /\ (exists v, In (WrapperStart v) (trace (run w evs)))
    /\ (forall err, outcome (run w evs) <> Thrown err).

(** "...prints usage and returns successfully...; the version flag behaves
    the same way." *)
Definition version_flag_returns_successfully : Prop :=
  forall (w : World) (args cliArgs configArgs : Args) (l : Listeners),
    parsed w = inr (args, cliArgs, configArgs) ->
    isChild w = false ->
    truthy (help args) = false ->
    truthy (version_flag args) = true ->
    outcome (entry w l) = Returned tt.

(** ** Concrete worlds *)

Definition dquote : string :=
  String (Ascii.Ascii false true false false false true false false) EmptyString.

Definition quoted (s : string) : string := dquote ++ s ++ dquote.

Definition json_array (xs : list string) : string :=
  "[" ++ String.concat "," (map quoted xs) ++ "]".

Definition json_flag (name : string) (flag : option bool) : string :=
  match flag with
  | Some true => "," ++ quoted name ++ ":true"
  | Some false => "," ++ quoted name ++ ":false"
  | None => ""
  end.

(** [JSON.stringify] on a message whose paths need no escaping. *)
Definition plain_stringify (p : PipeArgs) : string :=
  "{" ++ quoted "type" ++ ":" ++ quoted (pipe_type p)
  ++ "," ++ quoted "folderURIs" ++ ":" ++ json_array (folderURIs p)
  ++ "," ++ quoted "fileURIs" ++ ":" ++ json_array (fileURIs p)
  ++ json_flag "forceReuseWindow" (forceReuseWindow p)
  ++ json_flag "forceNewWindow" (forceNewWindow p) ++ "}".

(** [path.resolve] on segments of which the last is already absolute and
    normal, or on [__dirname] followed by a relative segment. *)
Definition posix_resolve (segments : list string) : string :=
  match segments with
  | [dir; "../../lib/vscode/out/vs/server/fork"] =>
      "/opt/code-server/lib/vscode/out/vs/server/fork"
  | _ => last segments "/"
  end.

(** A file system with the directory [/tmp/proj] and the file [/tmp/a.txt]. *)
Definition tmp_stat (path : string) : option bool :=
  if String.eqb path "/tmp/proj" then Some true
  else if String.eqb path "/tmp/a.txt" then Some false
  else None.

Definition no_flags (paths : list string) : Args :=
  mkArgs paths None None None None None None None None.

Definition world_with (hook : option string) (child : bool) (args : Args) : World :=
  mkWorld (fun name => if String.eqb name "VSCODE_IPC_HOOK_CLI" then hook else None)
          "4242" "/opt/code-server/out/node" posix_resolve tmp_stat
          plain_stringify
          (Some (mkPkg (Some "3.5.0") (Some "de41646fc402b968ca6d555fdf2da7de9554d28a")))
          (Some "1.48.2")
          (inr (args, args, no_flags []))
          ["-h --help  Show this output."]
          child None None None.

Definition open_both : Args := no_flags ["/tmp/proj"; "/tmp/a.txt"].

Definition new_window_file : Args :=
  mkArgs ["/tmp/a.txt"] None None None None None None None (Some true).

Definition list_extensions_args : Args :=
  mkArgs [] None None None (Some true) None None None None.

Definition help_and_install : Args :=
  mkArgs ["/tmp/proj"] (Some true) None None None (Some ["ms-python.python"])
         None None None.

Definition version_and_list : Args :=
  mkArgs [] None (Some true) None (Some true) None None None None.

(** [--version --json] *)
Definition version_json : Args :=
  mkArgs [] None (Some true) (Some true) None None None None None.

(** An installation in which [lib/vscode/package.json] cannot be loaded. *)
Definition world_without_vscode_package (args : Args) : World :=
  mkWorld (fun _ => None) "4242" "/opt/code-server/out/node" posix_resolve
          tmp_stat plain_stringify
          (Some (mkPkg (Some "3.5.0") (Some "de41646fc402b968ca6d555fdf2da7de9554d28a")))
          None
          (inr (args, args, no_flags []))
          ["-h --help  Show this output."]
          false None None None.

(** ** More ways to read a run *)

(** The events with which one of the four modes begins: the server's main
    body, the fork of the CLI, the request to an existing instance, the
    wrapper. *)
Definition is_mode_start (e : Event) : bool :=
  match e with
  | RunMain _ _ _ | Fork _ _ | HttpRequest _ _ _ | WrapperStart _ => true
  | _ => false
  end.

Definition is_child_message (ev : AsyncEvent) : bool :=
  match ev with ChildMessage _ => true | _ => false end.

(** The forked process is gone: its "error" or "exit" event. *)
Definition is_child_end (ev : AsyncEvent) : bool :=
  match ev with ChildError _ | ChildExit _ => true | _ => false end.

(** The invocation takes the last branch of [entry]: a new instance. *)
Definition spawn_branch (w : World) (args cliArgs configArgs : Args) : Prop :=
  parsed w = inr (args, cliArgs, configArgs)
  /\ isChild w = false
  /\ truthy (help args) = false
  /\ truthy (version_flag args) = false
  /\ shouldRunVsCodeCli args = false
  /\ truthy_string (process_env w "VSCODE_IPC_HOOK_CLI") = false.

(** A command line that [parse] refuses. *)
Definition unparsable_world : World :=
  mkWorld (fun _ => None) "4242" "/opt/code-server/out/node" posix_resolve
          tmp_stat plain_stringify None None
          (inl "Unknown option --frobnicate") [] false None None None.

Definition new_window_folder : Args :=
  mkArgs ["/tmp/proj"] None None None None None None (Some true) (Some true).

(** ** The server's main body *)

(** [main] of [entry.ts], with the calls into the HTTP server, the plugin
    loader and the utilities as events.  It runs in the child role after
    the handshake; the arbitrator above only records that it was called. *)
Module Server.

Import Stdlib.Strings.Ascii.

Inductive AuthType : Type := Password | NoAuth.   (* AuthType.Password, AuthType.None *)

(** [OptionalString] of [./cli]: a flag that may come without a value. *)
Record OptionalString : Type := mkOptionalString {
  value : option string
}.

(** The part of [Args] that [main] reads. *)
Record Args : Type := mkArgs {
  auth : option AuthType;
  password : option string;
  user_data_dir : option string;             (* args["user-data-dir"] *)
  extensions_dir : option string;            (* args["extensions-dir"] *)
  config : option string;
  cert : option OptionalString;
  cert_key : option string;                  (* args["cert-key"] *)
  socket : option string;
  open : option bool;
  proxy_domain : option (list string)        (* args["proxy-domain"] *)
}.

(** [HttpServerOptions] as [main] fills it. *)
Record HttpServerOptions : Type := mkOptions {
  opt_auth : option AuthType;
  opt_commit : string;
  opt_host : string;
  opt_password : option string;
  opt_port : Z;
  opt_proxyDomains : option (list string);
  opt_socket : option string;
  opt_cert : option string;
  opt_certKey : option string
}.

Inductive Provider : Type :=
| VscodeHttpProvider (args : Args)
| UpdateHttpProvider (enabled : bool)
| ProxyHttpProvider
| LoginHttpProvider (config : option string) (envPassword : bool)
| StaticHttpProvider
| HealthHttpProvider.

Inductive Event : Type :=
| Logged (lvl : Level) (msg : string)        (* logger.info / logger.error *)
| Traced (msg : string)                      (* logger.trace *)
| GenerateCertificate                        (* generateCertificate() *)
| NewHttpServer (options : HttpServerOptions)
| RegisterHttpProvider (routes : list string) (provider : Provider)
| LoadPlugins (args : Args)                  (* loadPlugins(httpServer, args) *)
| OnDispose                                  (* ipcMain.onDispose(...) *)
| Listen                                     (* httpServer.listen() *)
| DeleteEnv (name : string)                  (* delete process.env[name] *)
| OpenBrowser (address : string).            (* open(address) *)

(** What the other modules answer. *)
Record Collaborators : Type := mkCollaborators {
  humanPath : option string -> string;
  hash : string -> string;
  plural : Z -> string -> string;
  bindAddr : string * Z;                           (* bindAddrFromAllSources(cliArgs, configArgs) *)
  generated : string + (string * string);          (* generateCertificate(): rejection or {cert, certKey} *)
  construct_throws : option string;                (* new HttpServer(options) *)
  loadPlugins_rejects : option string;
  listen_result : string + option string;          (* httpServer.listen(): rejection or string | null *)
  protocol : string;                               (* httpServer.protocol *)
  proxyDomains : list string;                      (* httpServer.proxyDomains, in iteration order *)
  open_rejects : option string                     (* open(address) *)
}.

(** A computation: the events so far, and a value or a thrown error. *)
Definition Run (A : Type) : Type := (list Event * Outcome A)%type.

Definition ret {A : Type} (a : A) : Run A := ([], Returned a).

Definition bind {A B : Type} (m : Run A) (f : A -> Run B) : Run B :=
  match m with
  | (t, Returned a) => let (t', o) := f a in ((t ++ t')%list, o)
  | (t, Thrown e) => (t, Thrown e)
  | (t, Exited c) => (t, Exited c)
  end.

Definition emit (e : Event) : Run unit := ([e], Returned tt).

Definition throw {A : Type} (err : string) : Run A := ([], Thrown err).

Definition when (b : bool) (m : Run unit) : Run unit :=
  if b then m else ret tt.

(** A call that shows in the trace and may throw or reject. *)
Definition call (e : Event) (rejects : option string) : Run unit :=
  match rejects with
  | Some err => ([e], Thrown err)
  | None => ([e], Returned tt)
  end.

Declare Scope run_scope.
Notation "x <- m ;; k" := (bind m (fun x => k))
  (at level 61, m at next level, right associativity) : run_scope.
Notation "m ;; k" := (bind m (fun _ => k))
  (at level 61, right associativity) : run_scope.
Local Open Scope run_scope.

Definition events {A : Type} (r : Run A) : list Event := fst r.
Definition result {A : Type} (r : Run A) : Outcome A := snd r.

(** [a || b] on strings that may be undefined. *)
Definition or_else (a b : option string) : option string :=
  if truthy_string a then a else b.

Definition is_password (a : option AuthType) : bool :=
  match a with Some Password => true | _ => false end.

(** [if (!args.auth) { args = { ...args, auth: AuthType.Password } }] *)
Definition default_auth (args : Args) : Args :=
  match auth args with
  | Some _ => args
  | None =>
      mkArgs (Some Password) (password args) (user_data_dir args)
             (extensions_dir args) (config args) (cert args) (cert_key args)
             (socket args) (open args) (proxy_domain args)
  end.

(** [args.auth === AuthType.Password && (process.env.PASSWORD || args.password)];
    [None] stands for [false] and [undefined]. *)
Definition chosen_password (w : World) (args : Args) : option string :=
  if is_password (auth args)
  then or_else (process_env w "PASSWORD") (password args)
  else None.

(** [args.cert && args.cert.value] *)
Definition cert_value (args : Args) : option string :=
  match cert args with
  | Some c => value c
  | None => None
  end.

(** [args.cert && !args.cert.value] *)
Definition cert_without_value (args : Args) : bool :=
  match cert args with
  | Some c => negb (truthy_string (value c))
  | None => false
  end.

(** The spread at the end of the options literal: the generated pair, or
    the pair given by the flags. *)
Definition certificate (c : Collaborators) (args : Args)
  : Run (option string * option string) :=
  if cert_without_value args then
    match generated c with
    | inl err => ([GenerateCertificate], Thrown err)
    | inr (crt, key) => ([GenerateCertificate], Returned (Some crt, Some key))
    end
  else ret (cert_value args, cert_key args).

(** One character of the pattern of a regular expression without
    quantifiers. *)
Inductive PatternItem : Type :=
| Lit (c : Ascii.ascii)
| Dot.

(** Line terminators, which [.] does not match.  A string is read as its
    code units; the two terminators above 255 cannot occur in one. *)
Definition line_terminator (c : Ascii.ascii) : bool :=
  Ascii.eqb c (Ascii.ascii_of_nat 10) || Ascii.eqb c (Ascii.ascii_of_nat 13).

(** Match [pat] at the start of [s]; the rest of [s] on success. *)
Fixpoint match_here (pat : list PatternItem) (s : string) : option string :=
  match pat with
  | [] => Some s
  | item :: pat' =>
      match s with
      | EmptyString => None
      | String d s' =>
          match item with
          | Lit c => if Ascii.eqb c d then match_here pat' s' else None
          | Dot => if line_terminator d then None else match_here pat' s'
          end
      end
  end.

(** [s.replace(/pat/, replacement)]: the leftmost match is replaced, the
    replacement has no [$]. *)
Fixpoint replace_first (pat : list PatternItem) (replacement s : string) : string :=
  match match_here pat s with
  | Some rest => replacement ++ rest
  | None =>
      match s with
      | EmptyString => EmptyString
      | String c s' => String c (replace_first pat replacement s')
      end
  end.

(** [/:\/\/0.0.0.0/] *)
Definition any_host_pattern : list PatternItem :=
  [Lit ":"; Lit "/"; Lit "/"; Lit "0"; Dot; Lit "0"; Dot; Lit "0"; Dot; Lit "0"]%char.

(** [serverAddress.replace(/:\/\/0.0.0.0/, "://localhost")] *)
Definition open_address (serverAddress : string) : string :=
  replace_first any_host_pattern "://localhost" serverAddress.

(** [`${serverAddress}`] for [string | null] *)
Definition show_address (serverAddress : option string) : string :=
  match serverAddress with
  | Some a => a
  | None => "null"
  end.

Definition main (w : World) (c : Collaborators) (args0 : Args) : Run unit :=
  let args := default_auth args0 in
  emit (Logged Info ("Using user-data-dir " ++ humanPath c (user_data_dir args))) ;;
  emit (Traced ("Using extensions-dir " ++ humanPath c (extensions_dir args))) ;;
  let envPassword := truthy_string (process_env w "PASSWORD") in
  let password := chosen_password w args in
  when (is_password (auth args) && negb (truthy_string password))
       (throw "Please pass in a password via the config file or $PASSWORD") ;;
  let '(host, port) := bindAddr c in
  certs <- certificate c args ;;
  let options :=
    mkOptions (auth args) (commit w) host
              (if truthy_string password
               then match password with Some p => Some (hash c p) | None => None end
               else None)
              port (proxy_domain args) (socket args) (fst certs) (snd certs) in
  when (truthy_string (opt_cert options) && negb (truthy_string (opt_certKey options)))
       (throw "--cert-key is missing") ;;
  call (NewHttpServer options) (construct_throws c) ;;
  emit (RegisterHttpProvider ["/"; "/vscode"] (VscodeHttpProvider args)) ;;
  emit (RegisterHttpProvider ["/update"] (UpdateHttpProvider false)) ;;
  emit (RegisterHttpProvider ["/proxy"] ProxyHttpProvider) ;;
  emit (RegisterHttpProvider ["/login"] (LoginHttpProvider (config args) envPassword)) ;;
  emit (RegisterHttpProvider ["/static"] StaticHttpProvider) ;;
  emit (RegisterHttpProvider ["/healthz"] HealthHttpProvider) ;;
  call (LoadPlugins args) (loadPlugins_rejects c) ;;
  emit OnDispose ;;
  emit (Logged Info ("code-server " ++ version w ++ " " ++ commit w)) ;;
  serverAddress <- match listen_result c with
                   | inl err => ([Listen], Thrown err)
                   | inr a => ([Listen], Returned a)
                   end ;;
  emit (Logged Info ("HTTP server listening on " ++ show_address serverAddress)) ;;
  (if is_password (auth args) then
     (if envPassword
      then emit (Logged Info "    - Using password from $PASSWORD")
      else emit (Logged Info ("    - Using password from " ++ humanPath c (config args)))) ;;
     emit (Logged Info "    - To disable use `--auth none`")
   else emit (Logged Info "  - No authentication")) ;;
  emit (DeleteEnv "PASSWORD") ;;
  (if String.eqb (protocol c) "https" then
     emit (Logged Info
             (if truthy_string (cert_value args)
              then "  - Using provided certificate and key for HTTPS"
              else "  - Using generated certificate and key for HTTPS"))
   else emit (Logged Info "  - Not serving HTTPS")) ;;
  when (0 <? Z.of_nat (length (proxyDomains c)))
       (emit (Logged Info
                ("  - " ++ plural c (Z.of_nat (length (proxyDomains c)))
                                   "Proxying the following domain" ++ ":")) ;;
        fold_right (fun domain k => emit (Logged Info ("    - *." ++ domain)) ;; k)
                   (ret tt) (proxyDomains c)) ;;
  match serverAddress with
  | Some address =>
      when (truthy_string serverAddress
            && negb (truthy_string (opt_socket options))
            && truthy (open args))
           (let openAddress := open_address address in
            (match open_rejects c with
             | Some _ => ([OpenBrowser openAddress; Logged Error "Failed to open"],
                          Returned tt)
             | None => ([OpenBrowser openAddress], Returned tt)
             end) ;;
            emit (Logged Info ("Opened " ++ openAddress)))
  | None => ret tt
  end.

(** *** Reading what [main] did *)

Definition effective_auth (args : Args) : AuthType :=
  match auth args with
  | Some a => a
  | None => Password
  end.

(** The two lines [main] starts with. *)
Definition greeting (c : Collaborators) (args : Args) : list Event :=
  [Logged Info ("Using user-data-dir " ++ humanPath c (user_data_dir args));
   Traced ("Using extensions-dir " ++ humanPath c (extensions_dir args))].

(** [options.password] *)
Definition hashed_password (w : World) (c : Collaborators) (args : Args)
  : option string :=
  let password := chosen_password w (default_auth args) in
  if truthy_string password
  then match password with Some p => Some (hash c p) | None => None end
  else None.

Definition options_with (w : World) (c : Collaborators) (args : Args)
           (certs : option string * option string) : HttpServerOptions :=
  mkOptions (Some (effective_auth args)) (commit w) (fst (bindAddr c))
            (hashed_password w c args) (snd (bindAddr c))
            (proxy_domain args) (socket args) (fst certs) (snd certs).

Definition registrations (w : World) (args : Args) : list Event :=
  [RegisterHttpProvider ["/"; "/vscode"] (VscodeHttpProvider (default_auth args));
   RegisterHttpProvider ["/update"] (UpdateHttpProvider false);
   RegisterHttpProvider ["/proxy"] ProxyHttpProvider;
   RegisterHttpProvider ["/login"]
     (LoginHttpProvider (config args)
                        (truthy_string (process_env w "PASSWORD")));
   RegisterHttpProvider ["/static"] StaticHttpProvider;
   RegisterHttpProvider ["/healthz"] HealthHttpProvider].

(** From [new HttpServer] up to [listen()]. *)
Definition setup (w : World) (args : Args) (options : HttpServerOptions)
  : list Event :=
  (NewHttpServer options :: registrations w args
   ++ [LoadPlugins (default_auth args); OnDispose;
       Logged Info ("code-server " ++ version w ++ " " ++ commit w);
       Listen])%list.

Definition auth_lines (w : World) (c : Collaborators) (args : Args) : list Event :=
  match effective_auth args with
  | Password =>
      [Logged Info (if truthy_string (process_env w "PASSWORD")
                    then "    - Using password from $PASSWORD"
                    else "    - Using password from " ++ humanPath c (config args));
       Logged Info "    - To disable use `--auth none`"]
  | NoAuth => [Logged Info "  - No authentication"]
  end.

Definition https_line (c : Collaborators) (args : Args) : Event :=
  Logged Info
    (if String.eqb (protocol c) "https" then
       if truthy_string (cert_value args)
       then "  - Using provided certificate and key for HTTPS"
       else "  - Using generated certificate and key for HTTPS"
     else "  - Not serving HTTPS").

Definition proxy_lines (c : Collaborators) : list Event :=
  match proxyDomains c with
  | [] => []
  | _ :: _ =>
      Logged Info ("  - " ++ plural c (Z.of_nat (length (proxyDomains c)))
                                    "Proxying the following domain" ++ ":")
      :: map (fun domain => Logged Info ("    - *." ++ domain)) (proxyDomains c)
  end.

(** The browser is opened: there is an address, no socket and [--open]. *)
Definition opens_browser (args : Args) (serverAddress : option string) : bool :=
  truthy_string serverAddress
  && negb (truthy_string (socket args))
  && truthy (open args).

Definition open_lines (c : Collaborators) (args : Args)
           (serverAddress : option string) : list Event :=
  match serverAddress with
  | Some address =>
      if opens_browser args serverAddress then
        (OpenBrowser (open_address address)
         :: match open_rejects c with
            | Some _ => [Logged Error "Failed to open"]
            | None => []
            end
         ++ [Logged Info ("Opened " ++ open_address address)])%list
      else []
  | None => []
  end.

(** Everything after [listen()] has resolved. *)
Definition report (w : World) (c : Collaborators) (args : Args)
           (serverAddress : option string) : list Event :=
  (Logged Info ("HTTP server listening on " ++ show_address serverAddress)
   :: auth_lines w c args
   ++ DeleteEnv "PASSWORD" :: https_line c args :: proxy_lines c
   ++ open_lines c args serverAddress)%list.

Definition is_generate (e : Event) : bool :=
  match e with GenerateCertificate => true | _ => false end.

Definition is_delete_env (e : Event) : bool :=
  match e with DeleteEnv _ => true | _ => false end.

Definition is_open_browser (e : Event) : bool :=
  match e with OpenBrowser _ => true | _ => false end.

(** [args.auth === AuthType.Password && !password], the test before the
    first [throw]. *)
Definition password_missing (w : World) (args : Args) : bool :=
  is_password (auth (default_auth args))
  && negb (truthy_string (chosen_password w (default_auth args))).

(** The certificate pair [main] ends up with, or the rejection of
    [generateCertificate]. *)
Definition certificate_pair (c : Collaborators) (args : Args)
  : string + (option string * option string) :=
  if cert_without_value args then
    match generated c with
    | inl err => inl err
    | inr (crt, key) => inr (Some crt, Some key)
    end
  else inr (cert_value args, cert_key args).

Definition certificate_events (args : Args) : list Event :=
  if cert_without_value args then [GenerateCertificate] else [].

(** [options.cert && !options.certKey] *)
Definition key_missing (certs : option string * option string) : bool :=
  truthy_string (fst certs) && negb (truthy_string (snd certs)).

Definition is_log (e : Event) : bool :=
  match e with Logged _ _ | Traced _ => true | _ => false end.

Definition is_registration (e : Event) : bool :=
  match e with RegisterHttpProvider _ _ => true | _ => false end.

(** The calls of [main] that are neither log lines nor route
    registrations. *)
Definition is_step (e : Event) : bool :=
  negb (is_log e || is_registration e).

(** The steps [main] takes, in order, as far as it gets. *)
Definition steps (w : World) (c : Collaborators) (args : Args) : list Event :=
  if password_missing w args then []
  else
    (certificate_events args
     ++ match certificate_pair c args with
        | inl _ => []
        | inr certs =>
            if key_missing certs then []
            else
              NewHttpServer (options_with w c args certs)
              :: match construct_throws c with
                 | Some _ => []
                 | None =>
                     LoadPlugins (default_auth args)
                     :: match loadPlugins_rejects c with
                        | Some _ => []
                        | None =>
                            OnDispose :: Listen
                            :: match listen_result c with
                               | inl _ => []
                               | inr serverAddress =>
                                   DeleteEnv "PASSWORD"
                                   :: match serverAddress with
                                      | Some address =>
                                          if opens_browser args serverAddress
                                          then [OpenBrowser (open_address address)]
                                          else []
                                      | None => []
                                      end
                               end
                        end
                 end
        end)%list.

(** The string has a [":"], the character every match starts with. *)
Fixpoint has_colon (s : string) : bool :=
  match s with
  | EmptyString => false
  | String d s' => Ascii.eqb ":" d || has_colon s'
  end.

End Server.


(** ** Concrete servers *)

Definition plain_collaborators : Server.Collaborators :=
  Server.mkCollaborators
    (fun p => match p with Some s => s | None => "" end)
    (fun p => "sha256:" ++ p)
    (fun n s => if Z.eqb n 1 then s else s ++ "s")
    ("0.0.0.0", 8080)
    (inr ("/tmp/code-server/self-signed.cert", "/tmp/code-server/self-signed.key"))
    None None
    (inr (Some "http://0.0.0.0:8080"))
    "http" ["example.com"] (Some "spawn xdg-open ENOENT").

(** [--open], password in the config file. *)
Definition open_with_password : Server.Args :=
  Server.mkArgs None (Some "hunter2") (Some "~/.local/share/code-server") None
                (Some "~/.config/code-server/config.yaml") None None None
                (Some true) None.

(** No password anywhere, [auth] unset. *)
Definition without_password : Server.Args :=
  Server.mkArgs None None None None None None None None None None.

(** [--auth none --cert /etc/ssl/site.crt], no [--cert-key]. *)
Definition cert_without_key : Server.Args :=
  Server.mkArgs (Some Server.NoAuth) None None None None
                (Some (Server.mkOptionalString (Some "/etc/ssl/site.crt")))
                None None None None.

(** [--auth none --cert], no value. *)
Definition cert_flag_alone : Server.Args :=
  Server.mkArgs (Some Server.NoAuth) None None None None
                (Some (Server.mkOptionalString None))
                None None None None.

(** * Properties *)

(** ** The monad's equations *)

Lemma bind_ret_l {A B : Type} (a : A) (f : A -> Eff B) (l : Listeners) :
  bind (ret a) f l = f a l.
Proof. unfold bind, ret; simpl. destruct (f a l); reflexivity. Qed.

Lemma bind_assoc {A B C : Type} (m : Eff A) (f : A -> Eff B) (g : B -> Eff C)
      (l : Listeners) :
  bind (bind m f) g l = bind m (fun a => bind (f a) g) l.
Proof.
  unfold bind; simpl.
  destruct (outcome (m l)) as [a|e|c]; simpl; try reflexivity.
  destruct (outcome (f a (listeners (m l)))); simpl;
    rewrite ?app_assoc; reflexivity.
Qed.

Lemma bind_emit {B : Type} (e : Event) (k : Eff B) (l : Listeners) :
  bind (emit e) (fun _ => k) l
  = mkResult (e :: trace (k l)) (outcome (k l)) (listeners (k l)).
Proof. reflexivity. Qed.

(** ** The classification loop *)

Lemma classify_paths_spec (w : World) (paths : list string) :
  forall (p : PipeArgs) (l : Listeners),
    classify_paths w paths p l
    = mkResult
        (map (fun x => FsStat (path_resolve w [x])) paths)
        (Returned
           (mkPipeArgs (pipe_type p)
              (folderURIs p
               ++ filter (is_directory w)
                    (map (fun x => path_resolve w [x]) paths))
              (fileURIs p
               ++ filter (fun fp => negb (is_directory w fp))
                    (map (fun x => path_resolve w [x]) paths))
              (forceReuseWindow p) (forceNewWindow p)))
        l.
Proof.
  induction paths as [|x rest IH]; intros p l.
  - simpl. unfold ret. rewrite !app_nil_r. destruct p; reflexivity.
  - cbn [classify_paths map filter].
    unfold isDir. rewrite bind_assoc, bind_emit, bind_ret_l.
    destruct (is_directory w (path_resolve w [x])) eqn:Hd; cbn [negb];
      rewrite IH; cbn [trace outcome listeners push_folder push_file
                       pipe_type folderURIs fileURIs forceReuseWindow
                       forceNewWindow];
      rewrite <- app_assoc; reflexivity.
Qed.

Lemma classify_initial (w : World) (args : Args) (l : Listeners) :
  classify_paths w (args_ args) (initial_pipeArgs args) l
  = mkResult (map FsStat (resolved_paths w args))
             (Returned (spec_pipeArgs w args)) l.
Proof.
  rewrite classify_paths_spec. unfold resolved_paths, spec_pipeArgs,
    spec_folderURIs, spec_fileURIs, resolved_paths, initial_pipeArgs.
  cbn [pipe_type folderURIs fileURIs forceReuseWindow forceNewWindow app].
  rewrite map_map. reflexivity.
Qed.

(** ** The delegator in closed form *)

Lemma openInExistingInstance_cases (w : World) (args : Args) (socketPath : string)
      (l : Listeners) :
  openInExistingInstance w args socketPath l
  = if new_window_with_files w args then
      mkResult (map FsStat (resolved_paths w args)
                ++ [Log Error "--new-window can only be used with folder paths";
                    ProcessExit 1])
               (Exited 1) l
    else if nothing_to_open w args then
      mkResult (map FsStat (resolved_paths w args)
                ++ [Log Error "Please specify at least one file or folder";
                    ProcessExit 1])
               (Exited 1) l
    else
      mkResult (map FsStat (resolved_paths w args)
                ++ [HttpRequest socketPath "/" "POST";
                    HttpWrite (JSON_stringify w (spec_pipeArgs w args));
                    HttpEnd])
               (Returned true) (with_request l).
Proof.
  unfold openInExistingInstance.
  unfold bind at 1. rewrite classify_initial.
  cbn [outcome trace listeners spec_pipeArgs forceNewWindow fileURIs folderURIs].
  fold (new_window_with_files w args). fold (nothing_to_open w args).
  destruct (new_window_with_files w args); [reflexivity|].
  destruct (nothing_to_open w args); reflexivity.
Qed.

Lemma length_pos_nonempty {A : Type} (xs : list A) :
  (0 <? Z.of_nat (length xs)) = negb (match xs with [] => true | _ => false end).
Proof. destruct xs; [reflexivity|]. cbn [length negb]. apply Z.ltb_lt. lia. Qed.

Lemma length_zero_empty {A : Type} (xs : list A) :
  (Z.of_nat (length xs) =? 0) = match xs with [] => true | _ => false end.
Proof. destruct xs; [reflexivity|]. cbn [length]. apply Z.eqb_neq. lia. Qed.

Lemma filter_stats (p : Event -> bool) (paths : list string) :
  (forall x, p (FsStat x) = false) -> filter p (map FsStat paths) = [].
Proof. intros H. induction paths; simpl; rewrite ?H; auto. Qed.

Lemma classify_outcome (w : World) (args : Args) (l : Listeners) (pa : PipeArgs) :
  outcome (classify_paths w (args_ args) (initial_pipeArgs args) l) = Returned pa ->
  pa = spec_pipeArgs w args.
Proof. rewrite classify_initial. cbn [outcome]. congruence. Qed.

Lemma filter_both_empty {A : Type} (f : A -> bool) (xs : list A) :
  filter f xs = [] -> filter (fun x => negb (f x)) xs = [] -> xs = [].
Proof.
  destruct xs as [|x rest]; [reflexivity|].
  cbn [filter]. destruct (f x); cbn [negb]; discriminate.
Qed.

Lemma new_window_with_files_true (w : World) (args : Args) (fp : string) :
  truthy (new_window args) = true ->
  In fp (spec_fileURIs w args) ->
  new_window_with_files w args = true.
Proof.
  intros Hnw Hin. unfold new_window_with_files.
  rewrite Hnw, length_pos_nonempty.
  destruct (spec_fileURIs w args); [contradiction | reflexivity].
Qed.

Lemma preconditions_pass (w : World) (args : Args) :
  truthy (new_window args) = false \/ spec_fileURIs w args = [] ->
  spec_folderURIs w args <> [] \/ spec_fileURIs w args <> [] ->
  new_window_with_files w args = false /\ nothing_to_open w args = false.
Proof.
  intros Hnw Hne. unfold new_window_with_files, nothing_to_open.
  rewrite length_pos_nonempty, !length_zero_empty. split.
  - destruct Hnw as [-> | ->]; [reflexivity | apply andb_false_r].
  - destruct (spec_folderURIs w args), (spec_fileURIs w args);
      try reflexivity.
    destruct Hne as [H | H]; contradiction H; reflexivity.
Qed.

Lemma filter_app_stats (p : Event -> bool) (paths : list string) (t : list Event) :
  (forall x, p (FsStat x) = false) ->
  filter p (map FsStat paths ++ t) = filter p t.
Proof. intros H. rewrite filter_app, filter_stats by exact H. reflexivity. Qed.

(** ** The delegator's preconditions *)

(** C2. When the delegator runs with force-new-window set and at least one
    positional path was classified as a file, it logs the error
    "--new-window can only be used with folder paths" and exits the process
    with code 1; the trace holds the [fs.stat] calls and nothing that
    touches the socket, and no request listener is left registered. *)
Theorem C2_new_window_with_file_is_fatal
        (w : World) (args : Args) (socketPath : string) (l : Listeners)
        (pipeArgs : PipeArgs) (fp : string) :
  outcome (classify_paths w (args_ args) (initial_pipeArgs args) l)
    = Returned pipeArgs ->
  truthy (forceNewWindow pipeArgs) = true ->
  In fp (fileURIs pipeArgs) ->
  let r := openInExistingInstance w args socketPath l in
  outcome r = Exited 1
  /\ trace r = (map FsStat (resolved_paths w args)
                ++ [Log Error "--new-window can only be used with folder paths";
                    ProcessExit 1])%list
  /\ filter is_socket_io (trace r) = []
  /\ listeners r = l.
Proof.
  intros Hc Hnw Hin r. subst r.
  apply classify_outcome in Hc. subst pipeArgs.
  cbn [spec_pipeArgs forceNewWindow fileURIs] in Hnw, Hin.
  rewrite openInExistingInstance_cases.
  rewrite (new_window_with_files_true w args fp Hnw Hin).
  cbn [outcome trace listeners]. repeat split.
  rewrite filter_app_stats by reflexivity. reflexivity.
Qed.

Lemma C2_new_window_with_file_is_fatal_witness :
  let w := world_with (Some "/tmp/vscode-ipc.sock") false new_window_file in
  let r := openInExistingInstance w new_window_file "/tmp/vscode-ipc.sock"
                                  no_listeners in
  outcome r = Exited 1
  /\ trace r = [FsStat "/tmp/a.txt";
                Log Error "--new-window can only be used with folder paths";
                ProcessExit 1]
  /\ filter is_socket_io (trace r) = []
  /\ listeners r = no_listeners.
Proof.
  exact (C2_new_window_with_file_is_fatal
           (world_with (Some "/tmp/vscode-ipc.sock") false new_window_file)
           new_window_file "/tmp/vscode-ipc.sock" no_listeners
           (mkPipeArgs "open" [] ["/tmp/a.txt"] None (Some true)) "/tmp/a.txt"
           eq_refl eq_refl (or_introl eq_refl)).
Defined.

(** C3. When the positional paths give no folder identifier and no file
    identifier, the delegator logs "Please specify at least one file or
    folder" and exits the process with code 1; nothing is written to the
    socket and no request exists. *)
Theorem C3_no_target_is_fatal
        (w : World) (args : Args) (socketPath : string) (l : Listeners)
        (pipeArgs : PipeArgs) :
  outcome (classify_paths w (args_ args) (initial_pipeArgs args) l)
    = Returned pipeArgs ->
  folderURIs pipeArgs = [] ->
  fileURIs pipeArgs = [] ->
  let r := openInExistingInstance w args socketPath l in
  outcome r = Exited 1
  /\ trace r = [Log Error "Please specify at least one file or folder";
                ProcessExit 1]
  /\ count_events is_http_write (trace r) = 0%nat
  /\ filter is_socket_io (trace r) = []
  /\ listeners r = l.
Proof.
  intros Hc Hfo Hfi r. subst r.
  apply classify_outcome in Hc. subst pipeArgs.
  cbn [spec_pipeArgs folderURIs fileURIs] in Hfo, Hfi.
  assert (Hnone : resolved_paths w args = [])
    by (apply (filter_both_empty (is_directory w)); assumption).
  rewrite openInExistingInstance_cases.
  unfold new_window_with_files, nothing_to_open.
  rewrite Hfo, Hfi, Hnone. cbn [length Z.of_nat Z.ltb Z.eqb Z.compare andb map app].
  rewrite andb_false_r. cbn [outcome trace listeners].
  repeat split.
Qed.

Lemma C3_no_target_is_fatal_witness :
  let w := world_with (Some "/tmp/vscode-ipc.sock") false (no_flags []) in
  let r := openInExistingInstance w (no_flags []) "/tmp/vscode-ipc.sock"
                                  no_listeners in
  outcome r = Exited 1
  /\ trace r = [Log Error "Please specify at least one file or folder";
                ProcessExit 1]
  /\ count_events is_http_write (trace r) = 0%nat
  /\ filter is_socket_io (trace r) = []
  /\ listeners r = no_listeners.
Proof.
  exact (C3_no_target_is_fatal
           (world_with (Some "/tmp/vscode-ipc.sock") false (no_flags []))
           (no_flags []) "/tmp/vscode-ipc.sock" no_listeners
           (mkPipeArgs "open" [] [] None None) eq_refl eq_refl eq_refl).
Defined.

(** ** Classification and transmission *)

Lemma in_delegator_write (w : World) (args : Args) (socketPath : string)
      (l : Listeners) (payload : string) :
  In (HttpWrite payload) (trace (openInExistingInstance w args socketPath l)) ->
  payload = JSON_stringify w (spec_pipeArgs w args).
Proof.
  rewrite openInExistingInstance_cases.
  destruct (new_window_with_files w args);
    [|destruct (nothing_to_open w args)];
    cbn [trace]; intros Hin; apply in_app_or in Hin;
    (destruct Hin as [Hin | Hin];
     [ apply in_map_iff in Hin; destruct Hin as (x & Hx & _); discriminate
     | cbn [In] in Hin; intuition congruence ]).
Qed.

(** C4. The delegator resolves every positional path to an absolute path
    and asks [fs.stat] about it, in positional order, before anything else.
    The message it builds has type "open"; its folderURIs are the resolved
    paths that are directories and its fileURIs all the others (a file, or
    a path whose stat fails), each list in the positional order; every
    resolved path is in exactly one of the two; the two window flags are
    those of the invocation.  The delegator's whole trace is the stats
    followed by one of three endings: the two fatal precondition errors,
    tested on this message, or the request on which this message,
    serialized, is the one thing written. *)
Theorem C4_paths_classified (w : World) (args : Args) (l : Listeners) :
  exists pipeArgs : PipeArgs,
    classify_paths w (args_ args) (initial_pipeArgs args) l
    = mkResult (map (fun p => FsStat (path_resolve w [p])) (args_ args))
               (Returned pipeArgs) l
    /\ pipe_type pipeArgs = "open"
    /\ folderURIs pipeArgs
       = filter (fun fp => match fs_stat w fp with Some true => true | _ => false end)
                (map (fun p => path_resolve w [p]) (args_ args))
    /\ fileURIs pipeArgs
       = filter (fun fp => match fs_stat w fp with Some true => false | _ => true end)
                (map (fun p => path_resolve w [p]) (args_ args))
    /\ (length (folderURIs pipeArgs) + length (fileURIs pipeArgs)
        = length (args_ args))%nat
    /\ (forall p, In p (args_ args) ->
          (fs_stat w (path_resolve w [p]) = Some true ->
           In (path_resolve w [p]) (folderURIs pipeArgs))
          /\ (fs_stat w (path_resolve w [p]) <> Some true ->
              In (path_resolve w [p]) (fileURIs pipeArgs)))
    /\ (forall socketPath payload,
          In (HttpWrite payload)
             (trace (openInExistingInstance w args socketPath l)) ->
          payload = JSON_stringify w pipeArgs)
    /\ forceReuseWindow pipeArgs = reuse_window args
    /\ forceNewWindow pipeArgs = new_window args
    /\ (forall socketPath,
          trace (openInExistingInstance w args socketPath l)
          = (map (fun p => FsStat (path_resolve w [p])) (args_ args)
             ++ (if truthy (forceNewWindow pipeArgs)
                    && (0 <? Z.of_nat (length (fileURIs pipeArgs)))
                 then [Log Error "--new-window can only be used with folder paths";
                       ProcessExit 1]
                 else if (Z.of_nat (length (folderURIs pipeArgs)) =? 0)
                         && (Z.of_nat (length (fileURIs pipeArgs)) =? 0)
                 then [Log Error "Please specify at least one file or folder";
                       ProcessExit 1]
                 else [HttpRequest socketPath "/" "POST";
                       HttpWrite (JSON_stringify w pipeArgs);
                       HttpEnd]))%list).
Proof.
  exists (spec_pipeArgs w args).
  assert (Hfo : spec_folderURIs w args
                = filter (fun fp => match fs_stat w fp with
                                    | Some true => true | _ => false end)
                         (map (fun p => path_resolve w [p]) (args_ args))).
  { unfold spec_folderURIs, resolved_paths. apply filter_ext.
    intros fp. unfold is_directory. destruct (fs_stat w fp) as [[|]|]; reflexivity. }
  assert (Hfi : spec_fileURIs w args
                = filter (fun fp => match fs_stat w fp with
                                    | Some true => false | _ => true end)
                         (map (fun p => path_resolve w [p]) (args_ args))).
  { unfold spec_fileURIs, resolved_paths. apply filter_ext.
    intros fp. unfold is_directory. destruct (fs_stat w fp) as [[|]|]; reflexivity. }
  cbn [spec_pipeArgs pipe_type folderURIs fileURIs forceReuseWindow forceNewWindow].
  split; [|split; [reflexivity|split; [exact Hfo|split; [exact Hfi|
    split; [|split; [|split; [|split; [reflexivity|split; [reflexivity|]]]]]]]]].
  - rewrite classify_initial. unfold resolved_paths. rewrite map_map. reflexivity.
  - unfold spec_folderURIs, spec_fileURIs.
    rewrite filter_length. unfold resolved_paths. apply length_map.
  - intros p Hp. split; intros Hs.
    + rewrite Hfo. apply filter_In. split.
      * apply in_map_iff. exists p. split; [reflexivity | exact Hp].
      * rewrite Hs. reflexivity.
    + rewrite Hfi. apply filter_In. split.
      * apply in_map_iff. exists p. split; [reflexivity | exact Hp].
      * destruct (fs_stat w (path_resolve w [p])) as [[|]|];
          [contradiction Hs; reflexivity | reflexivity | reflexivity].
  - intros socketPath payload. apply in_delegator_write.
  - intros socketPath. rewrite openInExistingInstance_cases.
    unfold new_window_with_files, nothing_to_open, resolved_paths.
    rewrite map_map.
    destruct (truthy (new_window args)
              && (0 <? Z.of_nat (length (spec_fileURIs w args))));
      [reflexivity|].
    destruct ((Z.of_nat (length (spec_folderURIs w args)) =? 0)
              && (Z.of_nat (length (spec_fileURIs w args)) =? 0));
      reflexivity.
Qed.

(** The spec's example, on the delegator: the directory [/tmp/proj] and the
    file [/tmp/a.txt] are stat'ed in this order and travel as folderURIs
    and fileURIs of the one message written.  A path that does not exist
    travels as a file; with [--new-window] a file is refused after the
    stats. *)
Lemma C4_paths_classified_witness :
  trace (openInExistingInstance
           (world_with (Some "/tmp/vscode-ipc.sock") false open_both)
           open_both "/tmp/vscode-ipc.sock" no_listeners)
  = [FsStat "/tmp/proj"; FsStat "/tmp/a.txt";
     HttpRequest "/tmp/vscode-ipc.sock" "/" "POST";
     HttpWrite (plain_stringify
                  (mkPipeArgs "open" ["/tmp/proj"] ["/tmp/a.txt"] None None));
     HttpEnd]
  /\ trace (openInExistingInstance
              (world_with (Some "/tmp/vscode-ipc.sock") false
                          (no_flags ["/tmp/missing"; "/tmp/proj"]))
              (no_flags ["/tmp/missing"; "/tmp/proj"])
              "/tmp/vscode-ipc.sock" no_listeners)
     = [FsStat "/tmp/missing"; FsStat "/tmp/proj";
        HttpRequest "/tmp/vscode-ipc.sock" "/" "POST";
        HttpWrite (plain_stringify
                     (mkPipeArgs "open" ["/tmp/proj"] ["/tmp/missing"] None None));
        HttpEnd]
  /\ trace (openInExistingInstance
              (world_with (Some "/tmp/vscode-ipc.sock") false new_window_file)
              new_window_file "/tmp/vscode-ipc.sock" no_listeners)
     = (map FsStat (args_ new_window_file)
        ++ [Log Error "--new-window can only be used with folder paths";
            ProcessExit 1])%list.
Proof.
  split; [|split].
  - destruct (C4_paths_classified
                (world_with (Some "/tmp/vscode-ipc.sock") false open_both)
                open_both no_listeners)
      as ([t fo fi r n] & _ & Ht & Hfo & Hfi & _ & _ & _ & Hr & Hn & Htrace).
    cbn [pipe_type folderURIs fileURIs forceReuseWindow forceNewWindow] in *.
    rewrite Htrace. subst t fo fi r n. reflexivity.
  - destruct (C4_paths_classified
                (world_with (Some "/tmp/vscode-ipc.sock") false
                            (no_flags ["/tmp/missing"; "/tmp/proj"]))
                (no_flags ["/tmp/missing"; "/tmp/proj"]) no_listeners)
      as ([t fo fi r n] & _ & Ht & Hfo & Hfi & _ & _ & _ & Hr & Hn & Htrace).
    cbn [pipe_type folderURIs fileURIs forceReuseWindow forceNewWindow] in *.
    rewrite Htrace. subst t fo fi r n. reflexivity.
  - destruct (C4_paths_classified
                (world_with (Some "/tmp/vscode-ipc.sock") false new_window_file)
                new_window_file no_listeners)
      as ([t fo fi r n] & _ & Ht & Hfo & Hfi & _ & _ & _ & Hr & Hn & Htrace).
    cbn [pipe_type folderURIs fileURIs forceReuseWindow forceNewWindow] in *.
    rewrite Htrace. subst t fo fi r n. reflexivity.
Defined.

Lemma event_loop_response_data (messages : list string) (l : Listeners) :
  request_response l = true ->
  event_loop (map ResponseData messages) l
  = mkResult (map (fun _ => Log Debug "got message from VS Code") messages)
             (Returned tt) l.
Proof.
  intros Hl. induction messages as [|m rest IH]; [reflexivity|].
  cbn [map event_loop]. unfold bind, uncaught, deliver.
  rewrite Hl. cbn [request_on_data emit outcome trace listeners].
  rewrite IH. reflexivity.
Qed.

(** C9. Once both precondition checks pass, the delegator opens one request
    on the socket, writes the serialized message exactly once, ends the
    request and returns [true] there and then: its result does not depend
    on anything that arrives later.  Data that comes back afterwards is
    only logged at debug level; the process neither exits nor throws. *)
Theorem C9_fire_and_forget
        (w : World) (args : Args) (socketPath : string) (l : Listeners)
        (pipeArgs : PipeArgs) :
  outcome (classify_paths w (args_ args) (initial_pipeArgs args) l)
    = Returned pipeArgs ->
  truthy (forceNewWindow pipeArgs) = false \/ fileURIs pipeArgs = [] ->
  folderURIs pipeArgs <> [] \/ fileURIs pipeArgs <> [] ->
  let r := openInExistingInstance w args socketPath l in
  outcome r = Returned true
  /\ trace r = (map FsStat (resolved_paths w args)
                ++ [HttpRequest socketPath "/" "POST";
                    HttpWrite (JSON_stringify w pipeArgs);
                    HttpEnd])%list
  /\ count_events is_http_write (trace r) = 1%nat
  /\ forall messages : list string,
       event_loop (map ResponseData messages) (listeners r)
       = mkResult (map (fun _ => Log Debug "got message from VS Code") messages)
                  (Returned tt) (listeners r).
Proof.
  intros Hc Hnw Hne r. subst r.
  apply classify_outcome in Hc. subst pipeArgs.
  cbn [spec_pipeArgs forceNewWindow fileURIs folderURIs] in Hnw, Hne.
  destruct (preconditions_pass w args Hnw Hne) as [H1 H2].
  rewrite openInExistingInstance_cases, H1, H2.
  cbn [outcome trace listeners]. repeat split.
  - unfold count_events. rewrite filter_app_stats by reflexivity. reflexivity.
  - intros messages. apply event_loop_response_data. reflexivity.
Qed.

Lemma C9_fire_and_forget_witness :
  let w := world_with (Some "/tmp/vscode-ipc.sock") false open_both in
  let r := openInExistingInstance w open_both "/tmp/vscode-ipc.sock" no_listeners in
  outcome r = Returned true
  /\ trace r = [FsStat "/tmp/proj"; FsStat "/tmp/a.txt";
                HttpRequest "/tmp/vscode-ipc.sock" "/" "POST";
                HttpWrite (plain_stringify
                             (mkPipeArgs "open" ["/tmp/proj"] ["/tmp/a.txt"]
                                         None None));
                HttpEnd]
  /\ count_events is_http_write (trace r) = 1%nat
  /\ forall messages : list string,
       event_loop (map ResponseData messages) (listeners r)
       = mkResult (map (fun _ => Log Debug "got message from VS Code") messages)
                  (Returned tt) (listeners r).
Proof.
  exact (C9_fire_and_forget
           (world_with (Some "/tmp/vscode-ipc.sock") false open_both)
           open_both "/tmp/vscode-ipc.sock" no_listeners
           (mkPipeArgs "open" ["/tmp/proj"] ["/tmp/a.txt"] None None)
           eq_refl (or_introl eq_refl)
           (or_introl (fun H => eq_ind ["/tmp/proj"]
                                  (fun xs => match xs with [] => False | _ => True end)
                                  I [] H))).
Defined.

(** ** The event loop *)

Lemma event_loop_cons (ev : AsyncEvent) (rest : list AsyncEvent) (l : Listeners) :
  event_loop (ev :: rest) l
  = bind (uncaught (deliver ev)) (fun _ => event_loop rest) l.
Proof. reflexivity. Qed.

Lemma event_loop_app (pre post : list AsyncEvent) (l : Listeners) :
  event_loop (pre ++ post) l
  = bind (event_loop pre) (fun _ => event_loop post) l.
Proof.
  revert l. induction pre as [|ev pre IH]; intros l.
  - cbn [app event_loop]. rewrite bind_ret_l. reflexivity.
  - cbn [app].
    change (event_loop (ev :: pre))
      with (bind (uncaught (deliver ev)) (fun _ => event_loop pre)).
    rewrite bind_assoc, event_loop_cons.
    unfold bind at 1 2.
    destruct (outcome (uncaught (deliver ev) l)); try reflexivity.
    rewrite IH. reflexivity.
Qed.

(** A process that has exited sees no further event. *)
Lemma event_loop_exited (ev : AsyncEvent) (rest : list AsyncEvent) (l : Listeners)
      (code : Z) :
  outcome (deliver ev l) = Exited code ->
  event_loop (ev :: rest) l
  = mkResult (trace (deliver ev l)) (Exited code) (listeners (deliver ev l)).
Proof.
  intros H. rewrite event_loop_cons. unfold bind, uncaught.
  rewrite H. cbn [outcome]. rewrite H. reflexivity.
Qed.

Lemma deliver_exit (code : option Z) (rest : list AsyncEvent) (l : Listeners) :
  vscode_exit l = true ->
  event_loop (ChildExit code :: rest) l
  = mkResult [ProcessExit (code_or_0 code)] (Exited (code_or_0 code)) l.
Proof.
  intros H. rewrite (event_loop_exited _ _ _ (code_or_0 code));
    unfold deliver; rewrite H; reflexivity.
Qed.

Lemma deliver_error (error : string) (rest : list AsyncEvent) (l : Listeners) :
  vscode_error_once l = true ->
  outcome (event_loop (ChildError error :: rest) l) = Exited 1
  /\ trace (event_loop (ChildError error :: rest) l)
     = [Log Error "Got error from VS Code"; ProcessExit 1].
Proof.
  intros H. rewrite (event_loop_exited _ _ _ 1);
    unfold deliver; rewrite H; split; reflexivity.
Qed.

Lemma deliver_not_ready (args : Args) (message : IpcMessage)
      (rest : list AsyncEvent) (l : Listeners) :
  vscode_message_once l = Some args ->
  is_ready_message (ChildMessage message) = false ->
  outcome (event_loop (ChildMessage message :: rest) l) = Exited 1
  /\ filter is_child_send (trace (event_loop (ChildMessage message :: rest) l)) = [].
Proof.
  intros H Hn. destruct message as [|t].
  - rewrite event_loop_cons. unfold bind, uncaught, deliver. rewrite H.
    split; reflexivity.
  - cbn [is_ready_message] in Hn. apply negb_false_iff in Hn.
    rewrite (event_loop_exited _ _ _ 1);
      unfold deliver, vscode_on_message, message_type; rewrite H;
      rewrite bind_emit, bind_ret_l; unfold bind, when; rewrite Hn;
      split; reflexivity.
Qed.

Lemma deliver_ready (args : Args) (rest : list AsyncEvent) (l : Listeners) :
  vscode_message_once l = Some args ->
  let l' := mkListeners None (vscode_error_once l) (vscode_exit l)
                        (request_response l) (request_error l) in
  event_loop (ChildMessage (MsgWith (JStr "ready")) :: rest) l
  = mkResult (Log Debug "got message from VS Code"
              :: ChildSend (mkCliMessage "cli" args)
              :: trace (event_loop rest l'))
             (outcome (event_loop rest l'))
             (listeners (event_loop rest l')).
Proof.
  intros H l'. rewrite event_loop_cons. unfold bind, uncaught, deliver.
  rewrite H. reflexivity.
Qed.

(** Once the "message" listener has run, nothing is ever sent again. *)
Lemma no_send_without_listener (evs : list AsyncEvent) :
  forall l : Listeners,
    vscode_message_once l = None ->
    filter is_child_send (trace (event_loop evs l)) = [].
Proof.
  induction evs as [|ev rest IH]; intros l Hl; [reflexivity|].
  rewrite event_loop_cons. unfold bind, uncaught.
  destruct ev as [m|e|c|m|e]; unfold deliver; rewrite ?Hl.
  - cbn [ret outcome trace listeners app]. apply IH, Hl.
  - destruct (vscode_error_once l); reflexivity.
  - destruct (vscode_exit l); [reflexivity|].
    cbn [ret outcome trace listeners app]. apply IH, Hl.
  - destruct (request_response l);
      cbn [request_on_data emit ret outcome trace listeners app filter
           is_child_send]; apply IH, Hl.
  - destruct (request_error l);
      cbn [request_on_error emit throw outcome trace listeners app filter
           is_child_send]; [apply IH, Hl | reflexivity].
Qed.

Lemma deliver_keeps_child_listeners (ev : AsyncEvent) (l : Listeners) :
  vscode_error_once l = true ->
  vscode_exit l = true ->
  outcome (uncaught (deliver ev) l) = Returned tt ->
  vscode_error_once (listeners (uncaught (deliver ev) l)) = true
  /\ vscode_exit (listeners (uncaught (deliver ev) l)) = true.
Proof.
  destruct l as [mo eo xo rr re]. cbn [vscode_error_once vscode_exit].
  intros -> ->.
  destruct ev as [[|t]|e|c|m|e]; unfold uncaught, deliver;
    cbn [vscode_message_once vscode_error_once vscode_exit request_response
         request_error].
  - destruct mo; cbn; intros H; try discriminate H; auto.
  - destruct mo; [|cbn; auto].
    unfold vscode_on_message, message_type, bind, when.
    cbn [emit ret outcome trace listeners].
    destruct (not_ready t); cbn; intros H; try discriminate H; auto.
  - cbn; intros H; discriminate H.
  - cbn; intros H; discriminate H.
  - destruct rr; cbn; auto.
  - destruct re; cbn; intros H; try discriminate H; auto.
Qed.

(** While the process runs, the "error" and "exit" listeners of the forked
    process stay registered. *)
Lemma child_listeners_stay (evs : list AsyncEvent) :
  forall l : Listeners,
    vscode_error_once l = true ->
    vscode_exit l = true ->
    outcome (event_loop evs l) = Returned tt ->
    vscode_error_once (listeners (event_loop evs l)) = true
    /\ vscode_exit (listeners (event_loop evs l)) = true.
Proof.
  induction evs as [|ev rest IH]; intros l He Hx Hr; [split; assumption|].
  rewrite event_loop_cons in Hr |- *. unfold bind in Hr |- *.
  destruct (outcome (uncaught (deliver ev) l)) as [[]|err|code] eqn:Ho;
    cbn [outcome] in Hr; try discriminate.
  cbn [listeners].
  destruct (deliver_keeps_child_listeners ev l He Hx Ho) as [He' Hx'].
  apply IH; assumption.
Qed.

(** ** The CLI delegate *)

Lemma entry_cli_branch (w : World) (args cliArgs configArgs : Args) (l : Listeners) :
  cli_branch w args cliArgs configArgs ->
  entry w l = runVsCodeCli w args l.
Proof.
  intros (Hp & Hc & Hh & Hv & Hs). unfold entry, tryParse.
  rewrite Hp, bind_ret_l, Hc, Hh, Hv, Hs. reflexivity.
Qed.

Lemma run_cli_branch (w : World) (args cliArgs configArgs : Args)
      (evs : list AsyncEvent) :
  cli_branch w args cliArgs configArgs ->
  run w evs
  = mkResult
      (Log Debug "forking vs code cli..."
       :: Fork (path_resolve w [dirname w; "../../lib/vscode/out/vs/server/fork"])
               (fork_env w)
       :: trace (event_loop evs (listeners_after_fork args)))
      (outcome (event_loop evs (listeners_after_fork args)))
      (listeners (event_loop evs (listeners_after_fork args))).
Proof.
  intros Hb. unfold run, bind. rewrite (entry_cli_branch _ _ _ _ _ Hb).
  reflexivity.
Qed.

(** C5, as the code has it. When the forked process never sent a
    ReadyMessage, the exit code of the parent is decided by the first event
    it observes: an "exit" event that reports code [n] gives [n], whatever
    [n] is, and one that reports no code gives 0; a first message that is
    not "ready", or an "error" event, gives 1. *)
Theorem C5_exit_without_ready
        (w : World) (args cliArgs configArgs : Args)
        (ev : AsyncEvent) (rest : list AsyncEvent) :
  cli_branch w args cliArgs configArgs ->
  is_child_event ev = true ->
  sent_ready (ev :: rest) = false ->
  outcome (run w (ev :: rest))
  = Exited (match ev with
            | ChildExit (Some n) => n
            | ChildExit None => 0
            | _ => 1
            end).
Proof.
  intros Hb Hc Hr. rewrite (run_cli_branch _ _ _ _ _ Hb). cbn [outcome].
  cbn [sent_ready existsb] in Hr. apply orb_false_elim in Hr as [Hr _].
  destruct ev as [m|e|c|m|e]; try discriminate Hc.
  - apply (deliver_not_ready args); [reflexivity | exact Hr].
  - apply deliver_error. reflexivity.
  - rewrite deliver_exit by reflexivity. destruct c; reflexivity.
Qed.

Lemma C5_exit_without_ready_witness :
  outcome (run (world_with None false list_extensions_args)
               [ChildExit (Some 3); ChildMessage (MsgWith (JStr "late"))])
  = Exited 3
  /\ outcome (run (world_with None false list_extensions_args)
                  [ChildExit (Some 1)])
     = Exited 1
  /\ outcome (run (world_with None false list_extensions_args)
                  [ChildExit None])
     = Exited 0.
Proof.
  assert (Hb : cli_branch (world_with None false list_extensions_args)
                          list_extensions_args list_extensions_args (no_flags []))
    by (repeat split).
  split; [|split].
  - exact (C5_exit_without_ready _ _ _ _
             (ChildExit (Some 3)) [ChildMessage (MsgWith (JStr "late"))]
             Hb eq_refl eq_refl).
  - exact (C5_exit_without_ready _ _ _ _ (ChildExit (Some 1)) []
             Hb eq_refl eq_refl).
  - exact (C5_exit_without_ready _ _ _ _ (ChildExit None) []
             Hb eq_refl eq_refl).
Defined.

(** C5, as it is written, fails: a forked process that sends nothing and
    exits with code 0 makes the parent exit with code 0. *)
Lemma C5_exit_code_counterexample : ~ exit_without_ready_is_code_1.
Proof.
  intros H.
  specialize (H (world_with None false list_extensions_args)
                list_extensions_args list_extensions_args (no_flags [])
                [ChildExit (Some 0)] (Some 0)).
  assert (Hb : cli_branch (world_with None false list_extensions_args)
                          list_extensions_args list_extensions_args (no_flags []))
    by (repeat split).
  specialize (H Hb eq_refl (or_introl eq_refl)).
  discriminate H.
Qed.

(** C6. In the CLI delegate: a first message of type "ready" is answered by
    exactly one message [{type: "cli", args}] to the forked process,
    whatever arrives afterwards; a first message of any other kind ends the
    parent with code 1 and nothing is sent; an "error" event of the forked
    process ends a running parent with code 1; its "exit" event ends a
    running parent with the code [n] it reports, whatever [n] is, or with 0
    when it reports none. *)
Theorem C6_cli_delegate_protocol (w : World) (args cliArgs configArgs : Args) :
  cli_branch w args cliArgs configArgs ->
  (forall rest : list AsyncEvent,
     let r := run w (ChildMessage (MsgWith (JStr "ready")) :: rest) in
     filter is_child_send (trace r) = [ChildSend (mkCliMessage "cli" args)])
  /\ (forall (message : IpcMessage) (rest : list AsyncEvent),
        is_ready_message (ChildMessage message) = false ->
        let r := run w (ChildMessage message :: rest) in
        outcome r = Exited 1 /\ count_events is_child_send (trace r) = 0%nat)
  /\ (forall (pre : list AsyncEvent) (error : string) (rest : list AsyncEvent),
        outcome (run w pre) = Returned tt ->
        outcome (run w (pre ++ ChildError error :: rest)) = Exited 1)
  /\ (forall (pre : list AsyncEvent) (code : option Z) (rest : list AsyncEvent),
        outcome (run w pre) = Returned tt ->
        outcome (run w (pre ++ ChildExit code :: rest))
        = Exited (match code with Some n => n | None => 0 end)).
Proof.
  intros Hb. split; [|split; [|split]].
  - intros rest r. subst r.
    rewrite (run_cli_branch _ _ _ _ _ Hb). cbn [trace].
    rewrite (deliver_ready args) by reflexivity.
    cbn [trace filter is_child_send].
    rewrite no_send_without_listener by reflexivity. reflexivity.
  - intros message rest Hn r. subst r.
    rewrite (run_cli_branch _ _ _ _ _ Hb). cbn [outcome trace].
    destruct (deliver_not_ready args message rest (listeners_after_fork args)
                eq_refl Hn) as [Ho Hs].
    split; [exact Ho|].
    unfold count_events. cbn [filter is_child_send]. rewrite Hs. reflexivity.
  - intros pre error rest H.
    rewrite !(run_cli_branch _ _ _ _ _ Hb) in *. cbn [outcome] in *.
    destruct (child_listeners_stay pre (listeners_after_fork args)
                eq_refl eq_refl H) as [He _].
    rewrite event_loop_app. unfold bind. rewrite H. cbn [outcome].
    apply deliver_error, He.
  - intros pre code rest H.
    rewrite !(run_cli_branch _ _ _ _ _ Hb) in *. cbn [outcome] in *.
    destruct (child_listeners_stay pre (listeners_after_fork args)
                eq_refl eq_refl H) as [_ Hx].
    rewrite event_loop_app. unfold bind. rewrite H. cbn [outcome].
    rewrite deliver_exit by exact Hx. reflexivity.
Qed.

Lemma C6_cli_delegate_protocol_witness :
  let w := world_with None false list_extensions_args in
  filter is_child_send
         (trace (run w [ChildMessage (MsgWith (JStr "ready"));
                        ChildMessage (MsgWith (JStr "ready"));
                        ChildExit None]))
  = [ChildSend (mkCliMessage "cli" list_extensions_args)]
  /\ outcome (run w [ChildMessage (MsgWith (JStr "hello"))]) = Exited 1
  /\ outcome (run w ([ChildMessage (MsgWith (JStr "ready"))]
                     ++ [ChildError "spawn ENOENT"])%list) = Exited 1
  /\ outcome (run w ([ChildMessage (MsgWith (JStr "ready"))]
                     ++ [ChildExit None])%list) = Exited 0
  /\ outcome (run w ([ChildMessage (MsgWith (JStr "ready"))]
                     ++ [ChildExit (Some 7); ChildExit (Some 2)])%list) = Exited 7
  /\ outcome (run w ([] ++ [ChildExit (Some 1)])%list) = Exited 1.
Proof.
  intros w.
  assert (Hb : cli_branch w list_extensions_args list_extensions_args (no_flags []))
    by (repeat split).
  destruct (C6_cli_delegate_protocol w list_extensions_args list_extensions_args
                                     (no_flags []) Hb)
    as (Hready & Hother & Herr & Hexit).
  split; [apply Hready|].
  split; [apply (Hother (MsgWith (JStr "hello")) []); reflexivity|].
  split; [apply Herr; reflexivity|].
  split; [apply (Hexit _ None); reflexivity|].
  split; [apply (Hexit _ (Some 7)); reflexivity
         | apply (Hexit [] (Some 1)); reflexivity].
Defined.

(** ** The probe *)

Lemma probe_signal (w : World) (args : Args) (l : Listeners) (socketPath : string) :
  process_env w "VSCODE_IPC_HOOK_CLI" = Some socketPath ->
  socketPath <> "" ->
  shouldOpenInExistingInstance w args l
  = mkResult [EnvLookup "VSCODE_IPC_HOOK_CLI"; EnvLookup "VSCODE_IPC_HOOK_CLI"]
             (Returned (Some socketPath)) l.
Proof.
  unfold shouldOpenInExistingInstance, getenv, bind, emit, ret.
  cbn [outcome trace listeners app]. intros -> Hne.
  destruct socketPath as [|c rest]; [contradiction Hne; reflexivity|].
  reflexivity.
Qed.

Lemma probe_no_signal (w : World) (args : Args) (l : Listeners) :
  truthy_string (process_env w "VSCODE_IPC_HOOK_CLI") = false ->
  shouldOpenInExistingInstance w args l
  = mkResult [EnvLookup "VSCODE_IPC_HOOK_CLI"] (Returned None) l.
Proof.
  unfold shouldOpenInExistingInstance, getenv, bind, emit, ret.
  cbn [outcome trace listeners app]. intros ->. reflexivity.
Qed.

(** C7. When the environment carries a non-empty [VSCODE_IPC_HOOK_CLI], the
    probe returns that address after reading the variable and nothing else:
    no flag, file or socket is looked at.  In every other case it returns
    nothing: the code has no other source of a candidate address. *)
Theorem C7_probe_env_signal (w : World) (args : Args) (l : Listeners) :
  (forall socketPath : string,
     process_env w "VSCODE_IPC_HOOK_CLI" = Some socketPath ->
     socketPath <> "" ->
     shouldOpenInExistingInstance w args l
     = mkResult [EnvLookup "VSCODE_IPC_HOOK_CLI"; EnvLookup "VSCODE_IPC_HOOK_CLI"]
                (Returned (Some socketPath)) l)
  /\ (truthy_string (process_env w "VSCODE_IPC_HOOK_CLI") = false ->
      shouldOpenInExistingInstance w args l
      = mkResult [EnvLookup "VSCODE_IPC_HOOK_CLI"] (Returned None) l).
Proof.
  split.
  - intros socketPath. apply probe_signal.
  - apply probe_no_signal.
Qed.

Lemma C7_probe_env_signal_witness :
  outcome (shouldOpenInExistingInstance
             (world_with (Some "/tmp/vscode-ipc.sock") false new_window_file)
             new_window_file no_listeners)
  = Returned (Some "/tmp/vscode-ipc.sock")
  /\ outcome (shouldOpenInExistingInstance
                (world_with None false new_window_file)
                new_window_file no_listeners)
     = Returned None.
Proof.
  split.
  - rewrite (proj1 (C7_probe_env_signal
                      (world_with (Some "/tmp/vscode-ipc.sock") false new_window_file)
                      new_window_file no_listeners)
                   "/tmp/vscode-ipc.sock" eq_refl
                   (fun H => eq_ind "/tmp/vscode-ipc.sock"
                               (fun s => match s with
                                         | EmptyString => False
                                         | String _ _ => True
                                         end) I "" H)).
    reflexivity.
  - rewrite (proj2 (C7_probe_env_signal (world_with None false new_window_file)
                                        new_window_file no_listeners) eq_refl).
    reflexivity.
Defined.

(** ** The arbitrator *)

Lemma print_help_usage (w : World) (l : Listeners) :
  print_help w l = mkResult (usage w) (Returned tt) l.
Proof.
  unfold print_help, usage. rewrite !bind_emit. cbn [app].
  assert (H : forall ds : list string,
             fold_right
               (fun description k =>
                  emit (ConsoleLog [CStr ""; CStr description]) ;; k)
               (ret tt) ds l
             = mkResult
                 (map (fun description => ConsoleLog [CStr ""; CStr description]) ds)
                 (Returned tt) l).
  { induction ds as [|d ds IH]; [reflexivity|].
    cbn [fold_right map]. rewrite bind_emit, IH. reflexivity. }
  rewrite H. reflexivity.
Qed.

Lemma only_console_log_usage (w : World) :
  forallb is_console_log (usage w) = true.
Proof.
  unfold usage. rewrite forallb_app. cbn [forallb is_console_log andb].
  induction (optionDescriptions w); [reflexivity | assumption].
Qed.

Lemma entry_parent (w : World) (args cliArgs configArgs : Args) (l : Listeners) :
  parsed w = inr (args, cliArgs, configArgs) ->
  isChild w = false ->
  entry w l
  = (if truthy (help args) then print_help w
     else if truthy (version_flag args) then print_version w args
     else if shouldRunVsCodeCli args then runVsCodeCli w args
     else
       socketPath <- shouldOpenInExistingInstance w args ;;
       if truthy_string socketPath then
         match socketPath with
         | Some sock => detached (openInExistingInstance w args sock)
         | None => ret tt
         end
       else start_wrapper w) l.
Proof.
  intros Hp Hc. unfold entry, tryParse. rewrite Hp, bind_ret_l, Hc. reflexivity.
Qed.

Lemma entry_child (w : World) (args cliArgs configArgs : Args) (l : Listeners) :
  parsed w = inr (args, cliArgs, configArgs) ->
  isChild w = true ->
  entry w l
  = mkResult
      (match handshake_rejects w with
       | Some _ => [IpcHandshake]
       | None => [IpcHandshake; PreventExit; RunMain args cliArgs configArgs]
       end)
      (match handshake_rejects w with
       | Some err => Thrown err
       | None => match main_rejects w with
                 | Some err => Thrown err
                 | None => Returned tt
                 end
       end)
      l.
Proof.
  intros Hp Hc. unfold entry, tryParse. rewrite Hp, bind_ret_l, Hc.
  unfold main, external.
  destruct (handshake_rejects w), (main_rejects w); reflexivity.
Qed.

(** C8. In child role the entry point calls [ipcMain.handshake()], then
    [ipcMain.preventExit()], and only then [main]: any run of [main] has
    exactly these two calls before it, and a handshake that is rejected
    leaves [main] unrun.  No usage or version is printed, nothing is forked,
    probed, delegated or started. *)
Theorem C8_child_handshake_first
        (w : World) (args cliArgs configArgs : Args) (l : Listeners) :
  parsed w = inr (args, cliArgs, configArgs) ->
  isChild w = true ->
  let r := entry w l in
  trace r = match handshake_rejects w with
            | Some _ => [IpcHandshake]
            | None => [IpcHandshake; PreventExit; RunMain args cliArgs configArgs]
            end
  /\ (forall pre post a b c,
        trace r = (pre ++ RunMain a b c :: post)%list ->
        pre = [IpcHandshake; PreventExit])
  /\ filter (fun e => is_console_log e || is_arbitration_step e) (trace r) = []
  /\ listeners r = l.
Proof.
  intros Hp Hc r. subst r. rewrite (entry_child _ _ _ _ _ Hp Hc).
  cbn [trace listeners].
  split; [reflexivity|]. split; [|split; [|reflexivity]].
  - intros pre post a b c H.
    destruct (handshake_rejects w).
    + destruct pre as [|x [|y pre]]; cbn [app] in H; discriminate H.
    + destruct pre as [|x [|y [|z pre]]]; cbn [app] in H; try discriminate H.
      * inversion H. reflexivity.
      * inversion H as [[Hx Hy Hz Hrest]]. destruct pre; discriminate Hrest.
  - destruct (handshake_rejects w); reflexivity.
Qed.

Lemma C8_child_handshake_first_witness :
  trace (entry (world_with None true open_both) no_listeners)
  = [IpcHandshake; PreventExit; RunMain open_both open_both (no_flags [])].
Proof.
  exact (proj1 (C8_child_handshake_first (world_with None true open_both)
                  open_both open_both (no_flags []) no_listeners
                  eq_refl eq_refl)).
Defined.

(** C10, as the code has it. Outside child role, a set help flag makes the
    entry point print the usage text and return: the trace is that text and
    nothing else, and no listener is registered, whatever other flags and
    paths the invocation has.  With help unset and the version flag set,
    the entry point does nothing but print, whatever the other flags are:
    both flags are tested before [shouldRunVsCodeCli].  It prints the
    version and returns, except under [--json] when
    [lib/vscode/package.json] cannot be loaded: then it rejects, having
    printed nothing and started nothing. *)
Theorem C10_help_and_version_first
        (w : World) (args cliArgs configArgs : Args) (l : Listeners) :
  parsed w = inr (args, cliArgs, configArgs) ->
  isChild w = false ->
  (truthy (help args) = true ->
   entry w l = mkResult (usage w) (Returned tt) l
   /\ forallb is_console_log (usage w) = true)
  /\ (truthy (help args) = false ->
      truthy (version_flag args) = true ->
      let r := entry w l in
      forallb is_console_log (trace r) = true
      /\ listeners r = l
      /\ (truthy (json args) = false ->
          r = mkResult [ConsoleLog [CStr (version w); CStr (commit w)]]
                       (Returned tt) l)
      /\ (forall v : string,
            truthy (json args) = true ->
            vscode_package_version w = Some v ->
            r = mkResult [ConsoleLog [CObj [("codeServer", version w);
                                            ("commit", commit w);
                                            ("vscode", v)]]]
                         (Returned tt) l)
      /\ (truthy (json args) = true ->
          vscode_package_version w = None ->
          exists err, r = mkResult [] (Thrown err) l)).
Proof.
  intros Hp Hc. split.
  - intros Hh. rewrite (entry_parent _ _ _ _ _ Hp Hc), Hh.
    split; [apply print_help_usage | apply only_console_log_usage].
  - intros Hh Hv r. subst r.
    rewrite (entry_parent _ _ _ _ _ Hp Hc), Hh, Hv. unfold print_version.
    destruct (truthy (json args)).
    + destruct (vscode_package_version w) as [v|].
      * repeat split; try reflexivity; try discriminate.
        intros v' _ Hv'. inversion Hv'. reflexivity.
      * repeat split; try reflexivity; try discriminate.
        intros _ _. eexists. reflexivity.
    + repeat split; try reflexivity; discriminate.
Qed.

Lemma C10_help_and_version_first_witness :
  shouldRunVsCodeCli help_and_install = true
  /\ entry (world_with (Some "/tmp/vscode-ipc.sock") false help_and_install)
           no_listeners
     = mkResult
         (usage (world_with (Some "/tmp/vscode-ipc.sock") false help_and_install))
         (Returned tt) no_listeners
  /\ shouldRunVsCodeCli version_and_list = true
  /\ entry (world_with None false version_and_list) no_listeners
     = mkResult
         [ConsoleLog [CStr "3.5.0";
                      CStr "de41646fc402b968ca6d555fdf2da7de9554d28a"]]
         (Returned tt) no_listeners
  /\ entry (world_with None false version_json) no_listeners
     = mkResult
         [ConsoleLog [CObj [("codeServer", "3.5.0");
                            ("commit", "de41646fc402b968ca6d555fdf2da7de9554d28a");
                            ("vscode", "1.48.2")]]]
         (Returned tt) no_listeners
  /\ exists err,
       entry (world_without_vscode_package version_json) no_listeners
       = mkResult [] (Thrown err) no_listeners.
Proof.
  split; [reflexivity|]. split; [|split; [reflexivity|split; [|split]]].
  - apply (proj1 (C10_help_and_version_first
                    (world_with (Some "/tmp/vscode-ipc.sock") false help_and_install)
                    help_and_install help_and_install (no_flags []) no_listeners
                    eq_refl eq_refl)).
    reflexivity.
  - apply (proj2 (C10_help_and_version_first
                    (world_with None false version_and_list)
                    version_and_list version_and_list (no_flags []) no_listeners
                    eq_refl eq_refl));
      reflexivity.
  - apply (proj2 (C10_help_and_version_first
                    (world_with None false version_json)
                    version_json version_json (no_flags []) no_listeners
                    eq_refl eq_refl));
      reflexivity.
  - apply (proj2 (C10_help_and_version_first
                    (world_without_vscode_package version_json)
                    version_json version_json (no_flags []) no_listeners
                    eq_refl eq_refl));
      reflexivity.
Defined.

(** C10, as it is written, fails for the version flag: under [--json],
    with [lib/vscode/package.json] not loadable, the entry point does not
    return but rejects. *)
Lemma C10_version_json_counterexample : ~ version_flag_returns_successfully.
Proof.
  intros H.
  specialize (H (world_without_vscode_package version_json)
                version_json version_json (no_flags []) no_listeners
                eq_refl eq_refl eq_refl eq_refl).
  assert (Hthrown : outcome (entry (world_without_vscode_package version_json)
                                   no_listeners)
                    = Thrown "Cannot find module '../../lib/vscode/package.json'")
    by reflexivity.
  rewrite Hthrown in H. discriminate H.
Qed.

(** ** Delegation and transport errors *)

Lemma entry_delegation_branch (w : World) (args cliArgs configArgs : Args)
      (socketPath : string) (l : Listeners) :
  delegation_branch w args cliArgs configArgs socketPath ->
  let d := detached (openInExistingInstance w args socketPath) l in
  entry w l
  = mkResult (EnvLookup "VSCODE_IPC_HOOK_CLI"
              :: EnvLookup "VSCODE_IPC_HOOK_CLI" :: trace d)
             (outcome d) (listeners d).
Proof.
  intros (Hp & Hc & Hh & Hv & Hs & He & Hne) d. subst d.
  rewrite (entry_parent _ _ _ _ _ Hp Hc), Hh, Hv, Hs.
  unfold bind at 1.
  rewrite (probe_signal w args l socketPath He Hne).
  cbn [outcome trace listeners].
  destruct socketPath as [|c rest]; [contradiction Hne; reflexivity|].
  cbn [truthy_string app].
  destruct (outcome (detached (openInExistingInstance w args (String c rest)) l));
    reflexivity.
Qed.

Lemma event_loop_request_events (evs : list AsyncEvent) (l : Listeners) :
  request_response l = true ->
  request_error l = true ->
  forallb is_request_event evs = true ->
  event_loop evs l = mkResult (flat_map request_log evs) (Returned tt) l.
Proof.
  intros Hr He. induction evs as [|ev rest IH]; intros Hall; [reflexivity|].
  cbn [forallb] in Hall. apply andb_prop in Hall as [Hev Hrest].
  rewrite event_loop_cons. unfold bind, uncaught, deliver.
  destruct ev as [m|e|c|m|e]; try discriminate Hev;
    rewrite ?Hr, ?He;
    cbn [request_on_data request_on_error emit outcome trace listeners];
    rewrite (IH Hrest); reflexivity.
Qed.

Lemma no_wrapper_start_in_request_log (evs : list AsyncEvent) :
  filter is_wrapper_start (flat_map request_log evs) = [].
Proof.
  induction evs as [|ev rest IH]; [reflexivity|].
  cbn [flat_map]. rewrite filter_app, IH.
  destruct ev; reflexivity.
Qed.

Lemma run_delegation (w : World) (args cliArgs configArgs : Args)
      (socketPath : string) (evs : list AsyncEvent) :
  delegation_branch w args cliArgs configArgs socketPath ->
  new_window_with_files w args = false ->
  nothing_to_open w args = false ->
  forallb is_request_event evs = true ->
  run w evs
  = mkResult
      (EnvLookup "VSCODE_IPC_HOOK_CLI" :: EnvLookup "VSCODE_IPC_HOOK_CLI"
       :: map FsStat (resolved_paths w args)
       ++ [HttpRequest socketPath "/" "POST";
           HttpWrite (JSON_stringify w (spec_pipeArgs w args));
           HttpEnd]
       ++ flat_map request_log evs)
      (Returned tt) (with_request no_listeners).
Proof.
  intros Hb H1 H2 Hevs. unfold run, bind.
  rewrite (entry_delegation_branch _ _ _ _ _ _ Hb). unfold detached.
  rewrite openInExistingInstance_cases, H1, H2.
  cbn [outcome trace listeners].
  rewrite event_loop_request_events by (reflexivity || exact Hevs).
  cbn [outcome trace listeners app]. rewrite <- app_assoc. reflexivity.
Qed.

Lemma delegation_starts_no_wrapper (w : World) (args cliArgs configArgs : Args)
      (socketPath : string) (evs : list AsyncEvent) :
  delegation_branch w args cliArgs configArgs socketPath ->
  new_window_with_files w args = false ->
  nothing_to_open w args = false ->
  forallb is_request_event evs = true ->
  filter is_wrapper_start (trace (run w evs)) = [].
Proof.
  intros Hb H1 H2 Hevs.
  rewrite (run_delegation _ _ _ _ _ _ Hb H1 H2 Hevs).
  cbn [trace filter is_wrapper_start].
  rewrite filter_app_stats by reflexivity.
  cbn [app filter is_wrapper_start].
  apply no_wrapper_start_in_request_log.
Qed.

(** C1, as the code has it. When the request to the existing instance
    fails with a transport-level error, the error listener of the request
    logs it and that is all: [openInExistingInstance] has returned [true]
    before, the entry point has returned, no exception escapes and no new
    server instance is started. *)
Theorem C1_transport_error_only_logged
        (w : World) (args cliArgs configArgs : Args) (socketPath : string)
        (evs : list AsyncEvent) :
  delegation_branch w args cliArgs configArgs socketPath ->
  new_window_with_files w args = false ->
  nothing_to_open w args = false ->
  forallb is_request_event evs = true ->
  let r := run w evs in
  outcome (openInExistingInstance w args socketPath no_listeners) = Returned true
  /\ outcome (entry w no_listeners) = Returned tt
  /\ outcome r = Returned tt
  /\ trace r = (trace (entry w no_listeners) ++ flat_map request_log evs)%list
  /\ filter is_wrapper_start (trace r) = []
  /\ (forall error : string,
        In (RequestError error) evs ->
        In (Log Error "got error from VS Code") (trace r)).
Proof.
  intros Hb H1 H2 Hevs r. subst r.
  rewrite (run_delegation _ _ _ _ _ _ Hb H1 H2 Hevs).
  rewrite (entry_delegation_branch _ _ _ _ _ _ Hb). unfold detached.
  rewrite openInExistingInstance_cases, H1, H2.
  cbn [outcome trace listeners].
  split; [reflexivity|]. split; [reflexivity|]. split; [reflexivity|].
  split; [|split].
  - cbn [app]. rewrite <- app_assoc. reflexivity.
  - cbn [filter is_wrapper_start].
    rewrite filter_app_stats by reflexivity.
    cbn [app filter is_wrapper_start].
    apply no_wrapper_start_in_request_log.
  - intros error Hin. right. right. apply in_or_app. right.
    apply in_or_app. right. apply in_flat_map.
    exists (RequestError error). split; [exact Hin | left; reflexivity].
Qed.

Lemma C1_transport_error_only_logged_witness :
  let r := run (world_with (Some "/tmp/vscode-ipc.sock") false open_both)
               [RequestError "connect ECONNREFUSED /tmp/vscode-ipc.sock"] in
  outcome r = Returned tt
  /\ filter is_wrapper_start (trace r) = []
  /\ In (Log Error "got error from VS Code") (trace r).
Proof.
  intros r.
  destruct (C1_transport_error_only_logged
              (world_with (Some "/tmp/vscode-ipc.sock") false open_both)
              open_both open_both (no_flags []) "/tmp/vscode-ipc.sock"
              [RequestError "connect ECONNREFUSED /tmp/vscode-ipc.sock"])
    as (_ & _ & Ho & _ & Hw & Hlog).
  - repeat split. discriminate.
  - reflexivity.
  - reflexivity.
  - reflexivity.
  - split; [exact Ho|]. split; [exact Hw|].
    apply (Hlog "connect ECONNREFUSED /tmp/vscode-ipc.sock").
    left. reflexivity.
Defined.

(** C1, as it is written, fails: with the socket refusing the connection
    the delegation is not reported as failed and no new instance is
    started. *)
Lemma C1_no_fallback_counterexample : ~ transport_error_starts_new_instance.
Proof.
  intros H.
  assert (Hb : delegation_branch
                 (world_with (Some "/tmp/vscode-ipc.sock") false open_both)
                 open_both open_both (no_flags []) "/tmp/vscode-ipc.sock")
    by (repeat split; discriminate).
  destruct (H _ _ _ _ _
              [RequestError "connect ECONNREFUSED /tmp/vscode-ipc.sock"]
              "connect ECONNREFUSED /tmp/vscode-ipc.sock"
              Hb eq_refl eq_refl (or_introl eq_refl))
    as (_ & [v Hin] & _).
  assert (Hf : In (WrapperStart v)
                  (filter is_wrapper_start
                     (trace (run (world_with (Some "/tmp/vscode-ipc.sock")
                                             false open_both)
                                 [RequestError
                                    "connect ECONNREFUSED /tmp/vscode-ipc.sock"]))))
    by (apply filter_In; split; [exact Hin | reflexivity]).
  rewrite (delegation_starts_no_wrapper
             _ _ _ _ _
             [RequestError "connect ECONNREFUSED /tmp/vscode-ipc.sock"]
             Hb eq_refl eq_refl eq_refl)
    in Hf.
  exact Hf.
Qed.

(** * Further properties *)

(** ** The delegator as a whole *)

(** X1. [openInExistingInstance] has two ways to end and no other: it
    exits the process with code 1 before any socket I/O, leaving no
    listener behind, or it returns [true] after exactly one write, with
    the request's listeners registered.  It never returns [false] and
    never rejects. *)
Theorem delegator_exits_or_returns_true
        (w : World) (args : Args) (socketPath : string) (l : Listeners) :
  let r := openInExistingInstance w args socketPath l in
  (outcome r = Exited 1
   /\ listeners r = l
   /\ filter is_socket_io (trace r) = [])
  \/ (outcome r = Returned true
      /\ listeners r = with_request l
      /\ count_events is_http_write (trace r) = 1%nat).
Proof.
  intros r. subst r. rewrite openInExistingInstance_cases.
  destruct (new_window_with_files w args);
    [|destruct (nothing_to_open w args)]; cbn [outcome trace listeners].
  - left. repeat split. rewrite filter_app_stats by reflexivity. reflexivity.
  - left. repeat split. rewrite filter_app_stats by reflexivity. reflexivity.
  - right. repeat split. unfold count_events.
    rewrite filter_app_stats by reflexivity. reflexivity.
Qed.

(** X2. Every message the delegator writes to the socket keeps the
    invariant of an open command: it has type "open", carries the
    invocation's two window flags unchanged, names at least one folder or
    file, names no file when force-new-window is set, and lists as folders
    only paths that [fs.stat] reported as directories. *)
Theorem written_message_is_well_formed
        (w : World) (args : Args) (socketPath : string) (l : Listeners)
        (payload : string) :
  In (HttpWrite payload) (trace (openInExistingInstance w args socketPath l)) ->
  exists pipeArgs : PipeArgs,
    payload = JSON_stringify w pipeArgs
    /\ pipe_type pipeArgs = "open"
    /\ forceReuseWindow pipeArgs = reuse_window args
    /\ forceNewWindow pipeArgs = new_window args
    /\ (folderURIs pipeArgs <> [] \/ fileURIs pipeArgs <> [])
    /\ (truthy (forceNewWindow pipeArgs) = true -> fileURIs pipeArgs = [])
    /\ (forall fp, In fp (folderURIs pipeArgs) -> fs_stat w fp = Some true).
Proof.
  intros Hin. exists (spec_pipeArgs w args).
  split; [exact (in_delegator_write _ _ _ _ _ Hin)|].
  cbn [spec_pipeArgs pipe_type forceReuseWindow forceNewWindow folderURIs fileURIs].
  split; [reflexivity|]. split; [reflexivity|]. split; [reflexivity|].
  rewrite openInExistingInstance_cases in Hin.
  destruct (new_window_with_files w args) eqn:H1;
    [|destruct (nothing_to_open w args) eqn:H2]; cbn [trace] in Hin.
  - apply in_app_or in Hin. destruct Hin as [Hin|Hin].
    + apply in_map_iff in Hin. destruct Hin as (x & Hx & _). discriminate Hx.
    + cbn [In] in Hin. exfalso. intuition discriminate.
  - apply in_app_or in Hin. destruct Hin as [Hin|Hin].
    + apply in_map_iff in Hin. destruct Hin as (x & Hx & _). discriminate Hx.
    + cbn [In] in Hin. exfalso. intuition discriminate.
  - unfold new_window_with_files, nothing_to_open in H1, H2.
    rewrite length_pos_nonempty in H1. rewrite !length_zero_empty in H2.
    split; [|split].
    + destruct (spec_folderURIs w args); [|left; discriminate].
      destruct (spec_fileURIs w args); [discriminate H2 | right; discriminate].
    + intros Hnw. rewrite Hnw in H1.
      destruct (spec_fileURIs w args); [reflexivity | discriminate H1].
    + intros fp Hfp. unfold spec_folderURIs in Hfp.
      apply filter_In in Hfp. destruct Hfp as [_ Hd].
      unfold is_directory in Hd.
      destruct (fs_stat w fp) as [[|]|]; try discriminate Hd. reflexivity.
Qed.

Lemma written_message_is_well_formed_witness :
  exists pipeArgs : PipeArgs,
    plain_stringify (mkPipeArgs "open" ["/tmp/proj"] [] (Some true) (Some true))
    = plain_stringify pipeArgs
    /\ fileURIs pipeArgs = [].
Proof.
  destruct (written_message_is_well_formed
              (world_with (Some "/tmp/vscode-ipc.sock") false new_window_folder)
              new_window_folder "/tmp/vscode-ipc.sock" no_listeners
              (plain_stringify
                 (mkPipeArgs "open" ["/tmp/proj"] [] (Some true) (Some true))))
    as (pipeArgs & Hp & _ & _ & Hnw & _ & Hfiles & _).
  - right. right. left. reflexivity.
  - exists pipeArgs. split; [exact Hp|]. apply Hfiles. rewrite Hnw. reflexivity.
Defined.

(** ** The arbitrator as a whole *)

Lemma start_wrapper_cases (w : World) (l : Listeners) :
  start_wrapper w l
  = match package_json w with
    | Some p =>
        mkResult [WrapperStart (pkg_version p)]
                 (match wrapper_start_rejects w with
                  | Some err => Thrown err
                  | None => Returned tt
                  end) l
    | None => mkResult [] (Thrown "Cannot find module '../../package.json'") l
    end.
Proof.
  unfold start_wrapper, external.
  destruct (package_json w); [|reflexivity].
  destruct (wrapper_start_rejects w); reflexivity.
Qed.

Lemma entry_spawn_branch (w : World) (args cliArgs configArgs : Args) (l : Listeners) :
  spawn_branch w args cliArgs configArgs ->
  entry w l
  = mkResult (EnvLookup "VSCODE_IPC_HOOK_CLI" :: trace (start_wrapper w l))
             (outcome (start_wrapper w l)) l.
Proof.
  intros (Hp & Hc & Hh & Hv & Hs & He).
  rewrite (entry_parent _ _ _ _ _ Hp Hc), Hh, Hv, Hs.
  unfold bind at 1. rewrite (probe_no_signal w args l He).
  cbn [outcome trace listeners truthy_string app].
  rewrite start_wrapper_cases.
  destruct (package_json w); reflexivity.
Qed.

(** X3. Without help, version or extension flags and without a non-empty
    [VSCODE_IPC_HOOK_CLI] (unset or empty), the entry point reads that
    variable once and starts the wrapper with the version field of
    [package.json] as it is, without the "development" fallback; the
    positional paths are not looked at.  When [package.json] cannot be
    loaded it rejects and nothing is started. *)
Theorem spawns_without_hook
        (w : World) (args cliArgs configArgs : Args) (l : Listeners) :
  spawn_branch w args cliArgs configArgs ->
  let r := entry w l in
  trace r = EnvLookup "VSCODE_IPC_HOOK_CLI"
            :: match package_json w with
               | Some p => [WrapperStart (pkg_version p)]
               | None => []
               end
  /\ listeners r = l
  /\ (package_json w = None -> exists err, outcome r = Thrown err)
  /\ (package_json w <> None ->
      outcome r = match wrapper_start_rejects w with
                  | Some err => Thrown err
                  | None => Returned tt
                  end).
Proof.
  intros Hb r. subst r. rewrite (entry_spawn_branch _ _ _ _ _ Hb).
  rewrite start_wrapper_cases. cbn [trace listeners outcome].
  destruct (package_json w) as [p|]; cbn [trace outcome]; repeat split.
  - intros H. discriminate H.
  - intros _. eexists. reflexivity.
  - intros H. contradiction H. reflexivity.
Qed.

Lemma spawns_without_hook_witness :
  trace (entry (world_with (Some "") false open_both) no_listeners)
  = [EnvLookup "VSCODE_IPC_HOOK_CLI"; WrapperStart (Some "3.5.0")].
Proof.
  apply (spawns_without_hook (world_with (Some "") false open_both)
           open_both open_both (no_flags []) no_listeners).
  repeat split.
Defined.

Lemma no_mode_in_usage (w : World) : filter is_mode_start (usage w) = [].
Proof.
  unfold usage. rewrite filter_app. cbn [filter is_mode_start app].
  induction (optionDescriptions w); [reflexivity | assumption].
Qed.

Lemma hook_is_some (w : World) :
  truthy_string (process_env w "VSCODE_IPC_HOOK_CLI") = true ->
  exists socketPath,
    process_env w "VSCODE_IPC_HOOK_CLI" = Some socketPath /\ socketPath <> "".
Proof.
  destruct (process_env w "VSCODE_IPC_HOOK_CLI") as [[|a s]|];
    try discriminate. intros _. exists (String a s). split; [reflexivity | discriminate].
Qed.

(** The branch of [entry] an invocation takes. *)
Lemma entry_branches (w : World) :
  (exists err, parsed w = inl err)
  \/ exists args cliArgs configArgs,
       parsed w = inr (args, cliArgs, configArgs)
       /\ (isChild w = true
           \/ (isChild w = false /\ truthy (help args) = true)
           \/ (isChild w = false /\ truthy (help args) = false
               /\ truthy (version_flag args) = true)
           \/ cli_branch w args cliArgs configArgs
           \/ (exists socketPath,
                 delegation_branch w args cliArgs configArgs socketPath)
           \/ spawn_branch w args cliArgs configArgs).
Proof.
  destruct (parsed w) as [err|[[args cliArgs] configArgs]] eqn:Hp;
    [left; exists err; reflexivity|].
  right. exists args, cliArgs, configArgs. split; [reflexivity|].
  destruct (isChild w) eqn:Hc; [left; reflexivity|]. right.
  destruct (truthy (help args)) eqn:Hh; [left; split; reflexivity|]. right.
  destruct (truthy (version_flag args)) eqn:Hv;
    [left; repeat split; assumption|]. right.
  destruct (shouldRunVsCodeCli args) eqn:Hs;
    [left; repeat split; assumption|]. right.
  destruct (truthy_string (process_env w "VSCODE_IPC_HOOK_CLI")) eqn:He.
  - left. destruct (hook_is_some w He) as (socketPath & Hsock & Hne).
    exists socketPath. repeat split; assumption.
  - right. repeat split; assumption.
Qed.

Lemma entry_parse_failure (w : World) (l : Listeners) (err : string) :
  parsed w = inl err -> entry w l = mkResult [] (Thrown err) l.
Proof. intros Hp. unfold entry, tryParse, bind, throw. rewrite Hp. reflexivity. Qed.

Lemma entry_version (w : World) (args cliArgs configArgs : Args) (l : Listeners) :
  parsed w = inr (args, cliArgs, configArgs) ->
  isChild w = false ->
  truthy (help args) = false ->
  truthy (version_flag args) = true ->
  entry w l = print_version w args l.
Proof.
  intros Hp Hc Hh Hv. rewrite (entry_parent _ _ _ _ _ Hp Hc), Hh, Hv. reflexivity.
Qed.

Lemma entry_starts_one_mode (w : World) (l : Listeners) :
  (length (filter is_mode_start (trace (entry w l))) <= 1)%nat.
Proof.
  destruct (entry_branches w)
    as [[err Hp] | (args & cliArgs & configArgs & Hp &
                    [Hc | [[Hc Hh] | [(Hc & Hh & Hv) | [Hb | [[sock Hb] | Hb]]]]])].
  - rewrite (entry_parse_failure _ _ _ Hp). cbn. lia.
  - rewrite (entry_child _ _ _ _ _ Hp Hc). cbn [trace].
    destruct (handshake_rejects w); cbn; lia.
  - rewrite (entry_parent _ _ _ _ _ Hp Hc), Hh, print_help_usage. cbn [trace].
    rewrite no_mode_in_usage. cbn. lia.
  - rewrite (entry_version _ _ _ _ _ Hp Hc Hh Hv). unfold print_version.
    destruct (truthy (json args)); [destruct (vscode_package_version w)|];
      cbn; lia.
  - rewrite (entry_cli_branch _ _ _ _ _ Hb). cbn. lia.
  - rewrite (entry_delegation_branch _ _ _ _ _ _ Hb). unfold detached.
    rewrite openInExistingInstance_cases.
    destruct (new_window_with_files w args);
      [|destruct (nothing_to_open w args)];
      cbn [outcome trace listeners filter is_mode_start];
      rewrite filter_app_stats by reflexivity; cbn; lia.
  - rewrite (entry_spawn_branch _ _ _ _ _ Hb), start_wrapper_cases.
    destruct (package_json w); cbn; lia.
Qed.

(** No listener starts a mode. *)
Lemma step_starts_no_mode (ev : AsyncEvent) (l : Listeners) :
  filter is_mode_start (trace (uncaught (deliver ev) l)) = [].
Proof.
  destruct l as [mo eo xo rr re].
  destruct ev as [[|t]|e|c|m|e]; unfold uncaught, deliver;
    cbn [vscode_message_once vscode_error_once vscode_exit request_response
         request_error].
  - destruct mo; reflexivity.
  - destruct mo; [|reflexivity].
    unfold vscode_on_message, message_type, bind, when.
    cbn [emit ret outcome trace listeners].
    destruct (not_ready t); reflexivity.
  - destruct eo; reflexivity.
  - destruct xo; reflexivity.
  - destruct rr; reflexivity.
  - destruct re; reflexivity.
Qed.

Lemma loop_starts_no_mode (evs : list AsyncEvent) :
  forall l : Listeners, filter is_mode_start (trace (event_loop evs l)) = [].
Proof.
  induction evs as [|ev rest IH]; intros l; [reflexivity|].
  rewrite event_loop_cons. unfold bind.
  destruct (outcome (uncaught (deliver ev) l)); cbn [trace];
    rewrite ?filter_app, ?IH, step_starts_no_mode; reflexivity.
Qed.

(** X4. Whatever the invocation, the environment and the events that
    arrive afterwards, one process begins at most one of the four modes:
    the server's main body, the fork of the CLI, a request to an existing
    instance, or the wrapper of a new instance.  No listener retries or
    falls back to another mode. *)
Theorem process_starts_at_most_one_mode (w : World) (evs : list AsyncEvent) :
  (count_events is_mode_start (trace (run w evs)) <= 1)%nat.
Proof.
  unfold count_events, run, bind.
  pose proof (entry_starts_one_mode w no_listeners) as H.
  destruct (outcome (entry w no_listeners)); cbn [trace]; try exact H.
  rewrite filter_app, loop_starts_no_mode, app_nil_r. exact H.
Qed.

(** X5. The entry point rejects only when parsing rejects, when the
    handshake or the main body rejects in child role, when [--version
    --json] cannot load [lib/vscode/package.json], or when a new instance
    is to be started and [package.json] cannot be loaded or the wrapper's
    start rejects.  With [--help], plain [--version], the CLI delegate and
    delegation to an existing instance it never rejects. *)
Theorem entry_rejects_only_when (w : World) (l : Listeners) (err : string) :
  outcome (entry w l) = Thrown err ->
  parsed w = inl err
  \/ (isChild w = true
      /\ (handshake_rejects w = Some err \/ main_rejects w = Some err))
  \/ (isChild w = false
      /\ exists args cliArgs configArgs,
           parsed w = inr (args, cliArgs, configArgs)
           /\ truthy (help args) = false
           /\ ((truthy (version_flag args) = true
                /\ truthy (json args) = true
                /\ vscode_package_version w = None)
               \/ (spawn_branch w args cliArgs configArgs
                   /\ (package_json w = None
                       \/ wrapper_start_rejects w = Some err)))).
Proof.
  destruct (entry_branches w)
    as [[e Hp] | (args & cliArgs & configArgs & Hp &
                  [Hc | [[Hc Hh] | [(Hc & Hh & Hv) | [Hb | [[sock Hb] | Hb]]]]])].
  - rewrite (entry_parse_failure _ _ _ Hp). cbn [outcome]. intros H.
    left. congruence.
  - rewrite (entry_child _ _ _ _ _ Hp Hc). cbn [outcome]. intros H.
    right. left. split; [exact Hc|].
    destruct (handshake_rejects w); [left; congruence|].
    destruct (main_rejects w); [right; congruence | discriminate H].
  - rewrite (entry_parent _ _ _ _ _ Hp Hc), Hh, print_help_usage.
    cbn [outcome]. discriminate.
  - rewrite (entry_version _ _ _ _ _ Hp Hc Hh Hv). unfold print_version.
    destruct (truthy (json args)) eqn:Hj; [|discriminate].
    destruct (vscode_package_version w) eqn:Hpkg; [discriminate|].
    intros _. right. right. split; [exact Hc|].
    exists args, cliArgs, configArgs. split; [exact Hp|]. split; [exact Hh|].
    left. repeat split; assumption.
  - rewrite (entry_cli_branch _ _ _ _ _ Hb). discriminate.
  - rewrite (entry_delegation_branch _ _ _ _ _ _ Hb). unfold detached.
    rewrite openInExistingInstance_cases.
    destruct (new_window_with_files w args);
      [|destruct (nothing_to_open w args)]; discriminate.
  - rewrite (entry_spawn_branch _ _ _ _ _ Hb), start_wrapper_cases.
    cbn [outcome]. intros H. right. right.
    destruct Hb as (Hp' & Hc & Hh & Hrest). split; [exact Hc|].
    exists args, cliArgs, configArgs. split; [exact Hp|]. split; [exact Hh|].
    right. split; [repeat split; assumption || apply Hrest|].
    destruct (package_json w); [|left; reflexivity].
    cbn [outcome] in H. destruct (wrapper_start_rejects w);
      [right; congruence | discriminate H].
Qed.

Lemma entry_rejects_only_when_witness :
  parsed unparsable_world = inl "Unknown option --frobnicate".
Proof.
  destruct (entry_rejects_only_when unparsable_world no_listeners
              "Unknown option --frobnicate" eq_refl)
    as [H | [[H _] | [_ (a & b & c & H & _)]]].
  - exact H.
  - discriminate H.
  - discriminate H.
Defined.

(** X6. When the invocation is delegated to an existing instance and a
    precondition of the delegator fails, the whole process ends with exit
    code 1 after the error line: no request is made, no wrapper is started,
    and no event that arrives later is handled. *)
Theorem failed_precondition_ends_the_process
        (w : World) (args cliArgs configArgs : Args) (socketPath : string)
        (evs : list AsyncEvent) :
  delegation_branch w args cliArgs configArgs socketPath ->
  new_window_with_files w args = true \/ nothing_to_open w args = true ->
  run w evs
  = mkResult
      (EnvLookup "VSCODE_IPC_HOOK_CLI" :: EnvLookup "VSCODE_IPC_HOOK_CLI"
       :: map FsStat (resolved_paths w args)
       ++ [Log Error (if new_window_with_files w args
                      then "--new-window can only be used with folder paths"
                      else "Please specify at least one file or folder");
           ProcessExit 1])
      (Exited 1) no_listeners.
Proof.
  intros Hb Hfail. unfold run, bind.
  rewrite (entry_delegation_branch _ _ _ _ _ _ Hb). unfold detached.
  rewrite openInExistingInstance_cases.
  destruct (new_window_with_files w args); [reflexivity|].
  destruct Hfail as [Hfail | ->]; [discriminate Hfail | reflexivity].
Qed.

Lemma failed_precondition_ends_the_process_witness :
  outcome (run (world_with (Some "/tmp/vscode-ipc.sock") false new_window_file)
               [ResponseData "late"; RequestError "ECONNRESET"])
  = Exited 1.
Proof.
  rewrite (failed_precondition_ends_the_process
             (world_with (Some "/tmp/vscode-ipc.sock") false new_window_file)
             new_window_file new_window_file (no_flags []) "/tmp/vscode-ipc.sock"
             [ResponseData "late"; RequestError "ECONNRESET"]).
  - reflexivity.
  - repeat split. discriminate.
  - left. reflexivity.
Defined.

(** ** The CLI delegate over whole runs *)

(** One event, for a parent that still listens for "error" and "exit". *)
Lemma step_outcome (ev : AsyncEvent) (l : Listeners) :
  vscode_error_once l = true ->
  vscode_exit l = true ->
  match ev with
  | ChildError _ => outcome (uncaught (deliver ev) l) = Exited 1
  | ChildExit code => outcome (uncaught (deliver ev) l) = Exited (code_or_0 code)
  | _ => outcome (uncaught (deliver ev) l) = Returned tt
         \/ outcome (uncaught (deliver ev) l) = Exited 1
  end.
Proof.
  destruct l as [mo eo xo rr re]. cbn [vscode_error_once vscode_exit].
  intros -> ->.
  destruct ev as [[|t]|e|c|m|e]; unfold uncaught, deliver;
    cbn [vscode_message_once vscode_error_once vscode_exit request_response
         request_error]; try reflexivity.
  - destruct mo; cbn; auto.
  - destruct mo; [|cbn; auto].
    unfold vscode_on_message, message_type, bind, when.
    cbn [emit ret outcome trace listeners].
    destruct (not_ready t); cbn; auto.
  - destruct rr; cbn; auto.
  - destruct re; cbn; auto.
Qed.

Lemma loop_ends_with_child (evs : list AsyncEvent) :
  forall l : Listeners,
    vscode_error_once l = true ->
    vscode_exit l = true ->
    existsb is_child_end evs = true ->
    exists code,
      outcome (event_loop evs l) = Exited code
      /\ (code = 1 \/ exists c, In (ChildExit c) evs /\ code = code_or_0 c).
Proof.
  induction evs as [|ev rest IH]; intros l He Hx Hend; [discriminate Hend|].
  rewrite event_loop_cons. unfold bind.
  pose proof (step_outcome ev l He Hx) as Hstep.
  destruct (outcome (uncaught (deliver ev) l)) as [[]|err|code] eqn:Ho.
  - destruct (deliver_keeps_child_listeners ev l He Hx Ho) as [He' Hx'].
    assert (Hrest : existsb is_child_end rest = true).
    { cbn [existsb] in Hend. destruct ev; cbn [is_child_end orb] in Hend;
        try exact Hend; discriminate Hstep. }
    destruct (IH _ He' Hx' Hrest) as (code & Hc & Hcode).
    exists code. cbn [outcome]. split; [exact Hc|].
    destruct Hcode as [-> | (c & Hin & ->)]; [left; reflexivity|].
    right. exists c. split; [right; exact Hin | reflexivity].
  - exfalso. destruct ev; try discriminate Hstep;
      destruct Hstep as [H|H]; discriminate H.
  - exists code. cbn [outcome]. split; [reflexivity|].
    destruct ev as [m|e|c|m|e];
      try (destruct Hstep as [H|H]; [discriminate H | left; congruence]).
    + left. congruence.
    + right. exists c. split; [left; reflexivity | congruence].
Qed.

(** X7. The parent of the CLI delegate never outlives the forked
    process: once an "error" or "exit" event of the child is among the
    events, the parent has exited, with code 1, or with the very code [n]
    that one of the "exit" events reports, or with 0 when there is an "exit"
    event that reports no code. *)
Theorem cli_parent_ends_with_child
        (w : World) (args cliArgs configArgs : Args) (evs : list AsyncEvent) :
  cli_branch w args cliArgs configArgs ->
  existsb is_child_end evs = true ->
  exists code,
    outcome (run w evs) = Exited code
    /\ (code = 1
        \/ In (ChildExit (Some code)) evs
        \/ (code = 0 /\ In (ChildExit None) evs)).
Proof.
  intros Hb Hend. rewrite (run_cli_branch _ _ _ _ _ Hb). cbn [outcome].
  destruct (loop_ends_with_child evs (listeners_after_fork args)
              eq_refl eq_refl Hend) as (code & Hc & Hcode).
  exists code. split; [exact Hc|].
  destruct Hcode as [H1 | (c & Hin & Hcode)]; [left; exact H1|].
  right. destruct c as [n|]; cbn [code_or_0] in Hcode; subst code.
  - left. exact Hin.
  - right. split; [reflexivity | exact Hin].
Qed.

Lemma cli_parent_ends_with_child_witness :
  (exists code,
     outcome (run (world_with None false list_extensions_args)
                  [ChildMessage (MsgWith (JStr "ready")); ResponseData "x";
                   ChildExit (Some 2); ChildExit (Some 5)])
     = Exited code
     /\ (code = 1
         \/ In (ChildExit (Some code))
               [ChildMessage (MsgWith (JStr "ready")); ResponseData "x";
                ChildExit (Some 2); ChildExit (Some 5)]
         \/ (code = 0
             /\ In (ChildExit None)
                   [ChildMessage (MsgWith (JStr "ready")); ResponseData "x";
                    ChildExit (Some 2); ChildExit (Some 5)])))
  /\ outcome (run (world_with None false list_extensions_args)
                  [ChildMessage (MsgWith (JStr "ready")); ResponseData "x";
                   ChildExit (Some 2); ChildExit (Some 5)])
     = Exited 2.
Proof.
  split; [|reflexivity].
  apply (cli_parent_ends_with_child
           (world_with None false list_extensions_args)
           list_extensions_args list_extensions_args (no_flags [])).
  - repeat split.
  - reflexivity.
Defined.

Lemma not_ready_false (t : JsVal) : not_ready t = false -> t = JStr "ready".
Proof.
  destruct t as [| |b|n|s]; try discriminate. cbn [not_ready]. intros H.
  apply negb_false_iff, String.eqb_eq in H. congruence.
Qed.

(** One event: what becomes of the "message" listener, and that only a
    message can make the parent send. *)
Lemma step_message_listener (ev : AsyncEvent) (l : Listeners) :
  (outcome (uncaught (deliver ev) l) = Returned tt ->
   vscode_message_once (listeners (uncaught (deliver ev) l))
   = if is_child_message ev then None else vscode_message_once l)
  /\ (is_child_message ev = false ->
      filter is_child_send (trace (uncaught (deliver ev) l)) = []).
Proof.
  destruct l as [mo eo xo rr re].
  destruct ev as [[|t]|e|c|m|e]; unfold uncaught, deliver;
    cbn [vscode_message_once vscode_error_once vscode_exit request_response
         request_error is_child_message].
  - split; [|discriminate]. destruct mo; cbn; intros H; try discriminate H; auto.
  - split; [|discriminate]. destruct mo; [|cbn; auto].
    unfold vscode_on_message, message_type, bind, when.
    cbn [emit ret outcome trace listeners].
    destruct (not_ready t); cbn; intros H; try discriminate H; auto.
  - destruct eo; cbn; split; intros H; try discriminate H; auto.
  - destruct xo; cbn; split; intros H; try discriminate H; auto.
  - destruct rr; cbn; split; auto.
  - destruct re; cbn; split; intros H; try discriminate H; auto.
Qed.

Lemma loop_sends (evs : list AsyncEvent) :
  forall (l : Listeners) (args : Args),
    vscode_message_once l = Some args ->
    filter is_child_send (trace (event_loop evs l)) = []
    \/ (filter is_child_send (trace (event_loop evs l))
        = [ChildSend (mkCliMessage "cli" args)]
        /\ exists pre rest,
             evs = (pre ++ ChildMessage (MsgWith (JStr "ready")) :: rest)%list
             /\ existsb is_child_message pre = false).
Proof.
  induction evs as [|ev rest IH]; intros l args Hl; [left; reflexivity|].
  destruct (is_child_message ev) eqn:Hm.
  - destruct ev as [m| | | |]; try discriminate Hm.
    destruct (is_ready_message (ChildMessage m)) eqn:Hr.
    + destruct m as [|t]; [discriminate Hr|].
      cbn [is_ready_message] in Hr. apply negb_true_iff, not_ready_false in Hr.
      subst t. right. rewrite (deliver_ready args) by exact Hl.
      cbn [trace filter is_child_send].
      rewrite no_send_without_listener by reflexivity.
      split; [reflexivity|]. exists [], rest. split; reflexivity.
    + left. apply (deliver_not_ready args); assumption.
  - destruct (step_message_listener ev l) as [Hkeep Hquiet].
    rewrite Hm in Hkeep. specialize (Hquiet Hm).
    rewrite event_loop_cons. unfold bind.
    destruct (outcome (uncaught (deliver ev) l)) as [[]|err|code] eqn:Ho;
      cbn [trace]; try (left; exact Hquiet).
    rewrite filter_app, Hquiet. cbn [app].
    assert (Hl' : vscode_message_once (listeners (uncaught (deliver ev) l))
                  = Some args)
      by (rewrite (Hkeep eq_refl); exact Hl).
    destruct (IH _ args Hl') as [H | (H & pre & rest' & -> & Hpre)].
    + left. exact H.
    + right. split; [exact H|].
      exists (ev :: pre), rest'. split; [reflexivity|].
      cbn [existsb]. rewrite Hm, Hpre. reflexivity.
Qed.

(** X8. Over any sequence of events the CLI delegate sends at most one
    message to the forked process; it is [{type: "cli", args}] with the
    invocation's own arguments, and it is sent only if the first message
    the child ever sent was "ready". *)
Theorem cli_arguments_sent_only_after_ready
        (w : World) (args cliArgs configArgs : Args) (evs : list AsyncEvent) :
  cli_branch w args cliArgs configArgs ->
  filter is_child_send (trace (run w evs)) = []
  \/ (filter is_child_send (trace (run w evs))
      = [ChildSend (mkCliMessage "cli" args)]
      /\ exists pre rest,
           evs = (pre ++ ChildMessage (MsgWith (JStr "ready")) :: rest)%list
           /\ existsb is_child_message pre = false).
Proof.
  intros Hb. rewrite (run_cli_branch _ _ _ _ _ Hb).
  cbn [trace filter is_child_send].
  apply loop_sends. reflexivity.
Qed.

Lemma cli_arguments_sent_only_after_ready_witness :
  filter is_child_send
         (trace (run (world_with None false list_extensions_args)
                     [ChildMessage (MsgWith (JStr "busy"));
                      ChildMessage (MsgWith (JStr "ready"))]))
  = [].
Proof.
  destruct (cli_arguments_sent_only_after_ready
              (world_with None false list_extensions_args)
              list_extensions_args list_extensions_args (no_flags [])
              [ChildMessage (MsgWith (JStr "busy"));
               ChildMessage (MsgWith (JStr "ready"))])
    as [H | (_ & pre & rest & Hsplit & Hpre)].
  - repeat split.
  - exact H.
  - exfalso. destruct pre as [|ev pre].
    + discriminate Hsplit.
    + inversion Hsplit. subst ev. discriminate Hpre.
Defined.

Lemma loop_ignores_message (message : IpcMessage) (rest : list AsyncEvent)
      (l : Listeners) :
  vscode_message_once l = None ->
  event_loop (ChildMessage message :: rest) l = event_loop rest l.
Proof.
  intros Hl. rewrite event_loop_cons. unfold bind, uncaught, deliver.
  rewrite Hl. cbn [ret outcome trace listeners app].
  destruct (event_loop rest l). reflexivity.
Qed.

Lemma listener_gone_after_message (pre : list AsyncEvent) :
  forall l : Listeners,
    existsb is_child_message pre = true
    \/ vscode_message_once l = None ->
    outcome (event_loop pre l) = Returned tt ->
    vscode_message_once (listeners (event_loop pre l)) = None.
Proof.
  induction pre as [|ev pre IH]; intros l H Ho.
  - destruct H as [H|H]; [discriminate H | exact H].
  - rewrite event_loop_cons in Ho |- *. unfold bind in Ho |- *.
    destruct (step_message_listener ev l) as [Hkeep _].
    destruct (outcome (uncaught (deliver ev) l)) as [[]|err|code];
      cbn [outcome] in Ho; try discriminate Ho.
    cbn [listeners]. apply IH; [|exact Ho].
    specialize (Hkeep eq_refl). rewrite Hkeep.
    destruct (is_child_message ev) eqn:Hm; [right; reflexivity|].
    cbn [existsb] in H. rewrite Hm in H. exact H.
Qed.

(** X9. The CLI delegate looks at the first message of the forked process
    only: a message that arrives after another one is dropped, whatever
    its kind, and changes neither what the parent does nor how it ends. *)
Theorem cli_later_messages_are_ignored
        (w : World) (args cliArgs configArgs : Args)
        (pre : list AsyncEvent) (message : IpcMessage) (rest : list AsyncEvent) :
  cli_branch w args cliArgs configArgs ->
  existsb is_child_message pre = true ->
  run w (pre ++ ChildMessage message :: rest) = run w (pre ++ rest).
Proof.
  intros Hb Hpre. rewrite !(run_cli_branch _ _ _ _ _ Hb).
  rewrite !event_loop_app. unfold bind.
  destruct (outcome (event_loop pre (listeners_after_fork args)))
    as [[]|err|code] eqn:Ho; try reflexivity.
  rewrite loop_ignores_message; [reflexivity|].
  apply listener_gone_after_message; [left; exact Hpre | exact Ho].
Qed.

Lemma cli_later_messages_are_ignored_witness :
  run (world_with None false list_extensions_args)
      ([ChildMessage (MsgWith (JStr "ready"))]
       ++ ChildMessage (MsgWith (JStr "unexpected")) :: [ChildExit (Some 0)])
  = run (world_with None false list_extensions_args)
        ([ChildMessage (MsgWith (JStr "ready"))] ++ [ChildExit (Some 0)]).
Proof.
  apply (cli_later_messages_are_ignored
           (world_with None false list_extensions_args)
           list_extensions_args list_extensions_args (no_flags [])).
  - repeat split.
  - reflexivity.
Defined.

Lemma fork_env_inherits (w : World) (name : string) :
  name <> "CODE_SERVER_PARENT_PID" -> fork_env w name = process_env w name.
Proof.
  intros Hne. unfold fork_env.
  destruct (String.eqb name "CODE_SERVER_PARENT_PID") eqn:He; [|reflexivity].
  apply String.eqb_eq in He. contradiction.
Qed.

(** X10. Extension management wins over an existing instance: outside
    child role and without help or version, a true [list-extensions] or a
    present [install-extension] or [uninstall-extension] list (an empty one
    too) makes the entry point fork the CLI once, register the three
    listeners and return; nothing else happens, so the probe does not run
    and nothing is sent to an existing instance.  The forked process gets
    the parent's environment, [VSCODE_IPC_HOOK_CLI] included, with
    [CODE_SERVER_PARENT_PID] set to the parent's pid on top. *)
Theorem extension_flags_take_precedence
        (w : World) (args cliArgs configArgs : Args) (l : Listeners) :
  parsed w = inr (args, cliArgs, configArgs) ->
  isChild w = false ->
  truthy (help args) = false ->
  truthy (version_flag args) = false ->
  list_extensions args = Some true
  \/ install_extension args <> None
  \/ uninstall_extension args <> None ->
  exists env : string -> option string,
    entry w l
    = mkResult
        [Log Debug "forking vs code cli...";
         Fork (path_resolve w [dirname w; "../../lib/vscode/out/vs/server/fork"])
              env]
        (Returned tt)
        (mkListeners (Some args) true true (request_response l) (request_error l))
    /\ env "CODE_SERVER_PARENT_PID" = Some (process_pid w)
    /\ env "VSCODE_IPC_HOOK_CLI" = process_env w "VSCODE_IPC_HOOK_CLI"
    /\ (forall name, name <> "CODE_SERVER_PARENT_PID" ->
                     env name = process_env w name).
Proof.
  intros Hp Hc Hh Hv Hflag.
  assert (Hs : shouldRunVsCodeCli args = true).
  { unfold shouldRunVsCodeCli.
    destruct Hflag as [H | [H | H]].
    - rewrite H. reflexivity.
    - destruct (install_extension args); [|contradiction H; reflexivity].
      cbn [truthy_array]. rewrite orb_true_r. reflexivity.
    - destruct (uninstall_extension args); [|contradiction H; reflexivity].
      cbn [truthy_array]. apply orb_true_r. }
  exists (fork_env w).
  rewrite (entry_cli_branch w args cliArgs configArgs l)
    by (repeat split; assumption).
  split; [reflexivity|]. split; [reflexivity|]. split.
  - apply fork_env_inherits. discriminate.
  - intros name. apply fork_env_inherits.
Qed.

Lemma extension_flags_take_precedence_witness :
  exists env : string -> option string,
    trace (entry (world_with (Some "/tmp/vscode-ipc.sock") false
                             (mkArgs ["/tmp/proj"] None None None None (Some [])
                                     None None None))
                 no_listeners)
    = [Log Debug "forking vs code cli...";
       Fork "/opt/code-server/lib/vscode/out/vs/server/fork" env]
    /\ env "CODE_SERVER_PARENT_PID" = Some "4242"
    /\ env "VSCODE_IPC_HOOK_CLI" = Some "/tmp/vscode-ipc.sock".
Proof.
  destruct (extension_flags_take_precedence
              (world_with (Some "/tmp/vscode-ipc.sock") false
                          (mkArgs ["/tmp/proj"] None None None None (Some [])
                                  None None None))
              (mkArgs ["/tmp/proj"] None None None None (Some []) None None None)
              (mkArgs ["/tmp/proj"] None None None None (Some []) None None None)
              (no_flags []) no_listeners eq_refl eq_refl eq_refl eq_refl)
    as (env & He & Hpid & Hhook & _).
  - right. left. discriminate.
  - exists env. rewrite He. split; [reflexivity|].
    split; [exact Hpid | exact Hhook].
Defined.


(** ** The server's main body *)

Ltac run_step :=
  cbn [Server.bind Server.emit Server.when Server.throw Server.call Server.ret
       Server.opt_cert Server.opt_certKey Server.opt_socket];
  rewrite ?app_nil_r.

Lemma proxy_lines_run (c : Server.Collaborators) :
  Server.when (0 <? Z.of_nat (length (Server.proxyDomains c)))
    (Server.bind
       (Server.emit
          (Server.Logged Info
             ("  - " ++ Server.plural c (Z.of_nat (length (Server.proxyDomains c)))
                                     "Proxying the following domain" ++ ":")))
       (fun _ =>
          fold_right
            (fun domain k =>
               Server.bind (Server.emit (Server.Logged Info ("    - *." ++ domain)))
                           (fun _ => k))
            (Server.ret tt) (Server.proxyDomains c)))
  = (Server.proxy_lines c, Returned tt).
Proof.
  assert (H : forall ds : list string,
             fold_right
               (fun domain k =>
                  Server.bind (Server.emit (Server.Logged Info ("    - *." ++ domain)))
                              (fun _ => k))
               (Server.ret tt) ds
             = (map (fun domain => Server.Logged Info ("    - *." ++ domain)) ds,
                Returned tt)).
  { induction ds as [|d ds IH]; [reflexivity|].
    cbn [fold_right map]. rewrite IH. reflexivity. }
  unfold Server.proxy_lines. rewrite length_pos_nonempty.
  destruct (Server.proxyDomains c) as [|d ds] eqn:Hd; [reflexivity|].
  cbn [negb Server.when]. rewrite H. reflexivity.
Qed.

Lemma certificate_cases (c : Server.Collaborators) (args : Server.Args) :
  Server.certificate c (Server.default_auth args)
  = (Server.certificate_events args,
     match Server.certificate_pair c args with
     | inl err => Thrown err
     | inr certs => Returned certs
     end).
Proof.
  unfold Server.certificate, Server.certificate_events, Server.certificate_pair,
    Server.cert_without_value, Server.cert_value, Server.default_auth.
  destruct args as [au pw udd ed cfg crt ck so op pd].
  destruct au; cbn [Server.auth Server.cert Server.cert_key];
    (destruct crt as [v|]; [|reflexivity]);
    (destruct (negb (truthy_string (Server.value v))); [|reflexivity]);
    destruct (Server.generated c) as [e|[x y]]; reflexivity.
Qed.

(** [main] in closed form: where it stops and what it has done by then. *)
Lemma main_cases (w : World) (c : Server.Collaborators) (args : Server.Args) :
  Server.main w c args
  = if Server.password_missing w args then
      (Server.greeting c args,
       Thrown "Please pass in a password via the config file or $PASSWORD")
    else
      match Server.certificate_pair c args with
      | inl err =>
          ((Server.greeting c args ++ Server.certificate_events args)%list,
           Thrown err)
      | inr certs =>
          let options := Server.options_with w c args certs in
          let before :=
            (Server.greeting c args ++ Server.certificate_events args)%list in
          if Server.key_missing certs then
            (before, Thrown "--cert-key is missing")
          else
            match Server.construct_throws c with
            | Some err =>
                ((before ++ [Server.NewHttpServer options])%list, Thrown err)
            | None =>
                match Server.loadPlugins_rejects c with
                | Some err =>
                    ((before ++ Server.NewHttpServer options
                             :: Server.registrations w args
                             ++ [Server.LoadPlugins (Server.default_auth args)])%list,
                     Thrown err)
                | None =>
                    match Server.listen_result c with
                    | inl err =>
                        ((before ++ Server.setup w args options)%list, Thrown err)
                    | inr serverAddress =>
                        ((before ++ Server.setup w args options
                                 ++ Server.report w c args serverAddress)%list,
                         Returned tt)
                    end
                end
            end
      end.
Proof.
  unfold Server.main.
  rewrite certificate_cases.
  fold (Server.password_missing w args).
  assert (Hau : Server.auth (Server.default_auth args)
                = Some (Server.effective_auth args))
    by (destruct args as [[a|] ? ? ? ? ? ? ? ? ?]; reflexivity).
  assert (Hf : Server.user_data_dir (Server.default_auth args) = Server.user_data_dir args
               /\ Server.extensions_dir (Server.default_auth args) = Server.extensions_dir args
               /\ Server.config (Server.default_auth args) = Server.config args
               /\ Server.socket (Server.default_auth args) = Server.socket args
               /\ Server.open (Server.default_auth args) = Server.open args
               /\ Server.proxy_domain (Server.default_auth args) = Server.proxy_domain args
               /\ Server.cert_value (Server.default_auth args) = Server.cert_value args)
    by (destruct args as [[a|] ? ? ? ? ? ? ? ? ?]; repeat split; reflexivity).
  destruct Hf as (-> & -> & -> & -> & -> & -> & ->).
  rewrite Hau.
  unfold Server.greeting, Server.options_with. fold (Server.hashed_password w c args).
  rewrite proxy_lines_run.
  destruct (Server.bindAddr c) as [host port]. cbn [fst snd].
  destruct (Server.password_missing w args); [reflexivity|].
  destruct (Server.certificate_pair c args) as [err|certs]; run_step;
    [reflexivity|].
  unfold Server.key_missing.
  destruct (truthy_string (fst certs) && negb (truthy_string (snd certs)));
    run_step; [reflexivity|].
  destruct (Server.construct_throws c); run_step; [reflexivity|].
  destruct (Server.loadPlugins_rejects c); run_step; [reflexivity|].
  destruct (Server.listen_result c) as [err|serverAddress]; run_step;
    [reflexivity|].
  unfold Server.setup, Server.registrations, Server.report, Server.auth_lines,
    Server.https_line,
    Server.open_lines, Server.opens_browser.
  destruct (Server.effective_auth args); cbn [Server.is_password];
    destruct (truthy_string (process_env w "PASSWORD"));
    destruct (String.eqb (Server.protocol c) "https");
    (destruct serverAddress as [address|];
     [destruct (truthy_string (Some address)
                && negb (truthy_string (Server.socket args))
                && truthy (Server.open args));
      [destruct (Server.open_rejects c)|]|]);
    run_step; cbn [app]; rewrite <- ?app_assoc; cbn [app]; reflexivity.
Qed.

(** The branches of [main_cases], with the test that selects each one. *)
Ltac main_branches w c args :=
  rewrite (main_cases w c args);
  destruct (Server.password_missing w args) eqn:Hpassword;
  [|destruct (Server.certificate_pair c args) as [?err|certs] eqn:Hcerts;
    [|cbv zeta;
      destruct (Server.key_missing certs) eqn:Hkey;
      [|destruct (Server.construct_throws c) as [?err|] eqn:Hconstruct;
        [|destruct (Server.loadPlugins_rejects c) as [?err|] eqn:Hplugins;
          [|destruct (Server.listen_result c) as [?err|serverAddress] eqn:Hlisten]]]]];
  cbn [Server.events Server.result fst snd].

Lemma filter_logs (p : Server.Event -> bool) (l : list Server.Event) :
  (forall e, Server.is_log e = true -> p e = false) ->
  forallb Server.is_log l = true ->
  filter p l = [].
Proof.
  intros Hp. induction l as [|e l IH]; [reflexivity|].
  cbn [forallb filter]. intros H. apply andb_prop in H as [He Hl].
  rewrite (Hp e He). apply IH, Hl.
Qed.

Lemma greeting_logs (c : Server.Collaborators) (args : Server.Args) :
  forallb Server.is_log (Server.greeting c args) = true.
Proof. reflexivity. Qed.

Lemma auth_lines_logs (w : World) (c : Server.Collaborators) (args : Server.Args) :
  forallb Server.is_log (Server.auth_lines w c args) = true.
Proof. unfold Server.auth_lines. destruct (Server.effective_auth args); reflexivity. Qed.

Lemma proxy_lines_logs (c : Server.Collaborators) :
  forallb Server.is_log (Server.proxy_lines c) = true.
Proof.
  unfold Server.proxy_lines. destruct (Server.proxyDomains c) as [|d ds]; [reflexivity|].
  cbn [forallb Server.is_log andb]. generalize (d :: ds). intros l.
  induction l; [reflexivity | assumption].
Qed.

(** What a test that is false on log lines finds in [main]'s pieces. *)
Lemma filter_setup (p : Server.Event -> bool) (w : World) (args : Server.Args)
      (options : Server.HttpServerOptions) :
  (forall e, Server.is_log e = true -> p e = false) ->
  (forall e, Server.is_registration e = true -> p e = false) ->
  filter p (Server.setup w args options)
  = filter p [Server.NewHttpServer options;
              Server.LoadPlugins (Server.default_auth args);
              Server.OnDispose; Server.Listen].
Proof.
  intros Hlog Hreg. unfold Server.setup, Server.registrations.
  cbn [filter app].
  repeat rewrite (Hreg (Server.RegisterHttpProvider _ _) eq_refl).
  rewrite (Hlog (Server.Logged _ _) eq_refl). reflexivity.
Qed.

Lemma filter_report (p : Server.Event -> bool) (w : World) (c : Server.Collaborators)
      (args : Server.Args) (serverAddress : option string) :
  (forall e, Server.is_log e = true -> p e = false) ->
  filter p (Server.report w c args serverAddress)
  = (filter p [Server.DeleteEnv "PASSWORD"]
     ++ filter p (Server.open_lines c args serverAddress))%list.
Proof.
  intros Hlog. unfold Server.report. cbn [filter].
  rewrite (Hlog (Server.Logged _ _)) by reflexivity.
  rewrite filter_app, (filter_logs p _ Hlog (auth_lines_logs w c args)).
  cbn [app filter]. unfold Server.https_line.
  rewrite (Hlog (Server.Logged _ _)) by reflexivity.
  rewrite filter_app, (filter_logs p _ Hlog (proxy_lines_logs c)).
  destruct (p (Server.DeleteEnv "PASSWORD")); reflexivity.
Qed.

Lemma filter_open_lines (p : Server.Event -> bool) (c : Server.Collaborators)
      (args : Server.Args) (serverAddress : option string) :
  (forall e, Server.is_log e = true -> p e = false) ->
  filter p (Server.open_lines c args serverAddress)
  = match serverAddress with
    | Some address =>
        if Server.opens_browser args serverAddress
        then filter p [Server.OpenBrowser (Server.open_address address)]
        else []
    | None => []
    end.
Proof.
  intros Hlog. unfold Server.open_lines.
  destruct serverAddress as [address|]; [|reflexivity].
  destruct (Server.opens_browser args (Some address)); [|reflexivity].
  cbn [filter app].
  destruct (Server.open_rejects c); cbn [filter app];
    rewrite ?(Hlog (Server.Logged _ _)) by reflexivity; reflexivity.
Qed.

Lemma password_missing_iff (w : World) (args : Server.Args) :
  Server.password_missing w args = true
  <-> Server.effective_auth args = Server.Password
      /\ truthy_string (process_env w "PASSWORD") = false
      /\ truthy_string (Server.password args) = false.
Proof.
  unfold Server.password_missing, Server.chosen_password, Server.or_else,
    Server.effective_auth, Server.default_auth.
  destruct args as [[[|]|] pw udd ed cfg crt ck so op pd];
    cbn [Server.auth Server.password Server.is_password andb];
    destruct (truthy_string (process_env w "PASSWORD")) eqn:He;
    rewrite ?He; destruct (truthy_string pw); cbn [negb];
    split; try discriminate; try tauto;
    intros (H1 & H2 & H3); discriminate.
Qed.

(** X11. Under password authentication, which is also what an unset
    [auth] means, [main] throws "Please pass in a password via the config
    file or $PASSWORD" when neither [$PASSWORD] nor [args.password] holds a
    non-empty string; it has then written its two opening log lines and
    nothing else: no certificate, no server, no listening socket. *)
Theorem main_requires_password
        (w : World) (c : Server.Collaborators) (args : Server.Args) :
  Server.effective_auth args = Server.Password ->
  truthy_string (process_env w "PASSWORD") = false ->
  truthy_string (Server.password args) = false ->
  Server.main w c args
  = (Server.greeting c args,
     Thrown "Please pass in a password via the config file or $PASSWORD").
Proof.
  intros Ha He Hp. rewrite main_cases.
  rewrite (proj2 (password_missing_iff w args) (conj Ha (conj He Hp))).
  reflexivity.
Qed.

Lemma step_not_log (e : Server.Event) :
  Server.is_log e = true -> Server.is_step e = false.
Proof. unfold Server.is_step. intros ->. reflexivity. Qed.

Lemma step_not_registration (e : Server.Event) :
  Server.is_registration e = true -> Server.is_step e = false.
Proof. unfold Server.is_step. intros ->. rewrite orb_true_r. reflexivity. Qed.

(** Leaving out log lines and registrations, [main] does [steps]. *)
Lemma main_steps (w : World) (c : Server.Collaborators) (args : Server.Args) :
  filter Server.is_step (Server.events (Server.main w c args))
  = Server.steps w c args.
Proof.
  unfold Server.steps.
  main_branches w c args; rewrite ?Hkey;
    rewrite ?filter_app, ?(filter_logs _ _ step_not_log (greeting_logs c args));
    cbn [app filter];
    rewrite ?filter_app;
    rewrite ?(filter_setup _ _ _ _ step_not_log step_not_registration),
            ?(filter_report _ _ _ _ _ step_not_log),
            ?(filter_open_lines _ _ _ _ step_not_log);
    unfold Server.certificate_events, Server.registrations;
    destruct (Server.cert_without_value args);
    try (destruct serverAddress as [address|];
         [destruct (Server.opens_browser args (Some address))|]);
    reflexivity.
Qed.

Lemma filter_filter_implied {A : Type} (p q : A -> bool) (l : list A) :
  (forall x, p x = true -> q x = true) ->
  filter p (filter q l) = filter p l.
Proof.
  intros H. induction l as [|x l IH]; [reflexivity|].
  cbn [filter]. destruct (q x) eqn:Hq; cbn [filter]; rewrite IH; [reflexivity|].
  destruct (p x) eqn:Hp; [|reflexivity].
  rewrite (H x Hp) in Hq. discriminate Hq.
Qed.

(** A step that is in the trace of [main] is in [steps]. *)
Lemma step_in_main (w : World) (c : Server.Collaborators) (args : Server.Args)
      (e : Server.Event) :
  Server.is_step e = true ->
  In e (Server.events (Server.main w c args)) <-> In e (Server.steps w c args).
Proof.
  intros He. rewrite <- main_steps, filter_In. tauto.
Qed.

(** Where a [new HttpServer] in the trace comes from. *)
Lemma constructed_options (w : World) (c : Server.Collaborators) (args : Server.Args)
      (options : Server.HttpServerOptions) :
  In (Server.NewHttpServer options) (Server.events (Server.main w c args)) ->
  Server.password_missing w args = false
  /\ exists certs,
       Server.certificate_pair c args = inr certs
       /\ Server.key_missing certs = false
       /\ options = Server.options_with w c args certs.
Proof.
  intros Hin. apply step_in_main in Hin; [|reflexivity].
  unfold Server.steps, Server.certificate_events in Hin.
  destruct (Server.password_missing w args); [contradiction|].
  split; [reflexivity|].
  destruct (Server.certificate_pair c args) as [err|certs].
  - destruct (Server.cert_without_value args); cbn in Hin; intuition discriminate.
  - exists certs. destruct (Server.key_missing certs).
    + destruct (Server.cert_without_value args); cbn in Hin; intuition discriminate.
    + split; [reflexivity|]. split; [reflexivity|].
      apply in_app_or in Hin. destruct Hin as [Hin|Hin].
      * destruct (Server.cert_without_value args); cbn in Hin; intuition discriminate.
      * destruct Hin as [Hin|Hin]; [congruence|].
        destruct (Server.construct_throws c); [contradiction|].
        destruct Hin as [Hin|Hin]; [discriminate|].
        destruct (Server.loadPlugins_rejects c); [contradiction|].
        destruct Hin as [Hin|[Hin|Hin]]; try discriminate.
        destruct (Server.listen_result c) as [|[address|]]; [contradiction| |].
        -- destruct Hin as [Hin|Hin]; [discriminate|].
           destruct (Server.opens_browser args (Some address));
             cbn in Hin; intuition discriminate.
        -- destruct Hin as [Hin|[]]. discriminate.
Qed.

Lemma main_requires_password_witness :
  Server.main (world_with None true open_both) plain_collaborators without_password
  = ([Server.Logged Info "Using user-data-dir ";
      Server.Traced "Using extensions-dir "],
     Thrown "Please pass in a password via the config file or $PASSWORD").
Proof.
  exact (main_requires_password (world_with None true open_both)
           plain_collaborators without_password eq_refl eq_refl eq_refl).
Defined.

(** X12. Whenever [main] constructs the HTTP server, the options carry the
    effective authentication (password when [auth] is unset) and never the
    password itself: without authentication no password at all, under
    password authentication the hash of a non-empty password, which is
    [$PASSWORD] when that is non-empty and [args.password] otherwise. *)
Theorem server_gets_hashed_password
        (w : World) (c : Server.Collaborators) (args : Server.Args)
        (options : Server.HttpServerOptions) :
  In (Server.NewHttpServer options) (Server.events (Server.main w c args)) ->
  Server.opt_auth options = Some (Server.effective_auth args)
  /\ match Server.effective_auth args with
     | Server.NoAuth => Server.opt_password options = None
     | Server.Password =>
         exists p : string,
           p <> ""
           /\ Server.opt_password options = Some (Server.hash c p)
           /\ (if truthy_string (process_env w "PASSWORD")
               then process_env w "PASSWORD" = Some p
               else Server.password args = Some p)
     end.
Proof.
  intros Hin.
  destruct (constructed_options w c args options Hin)
    as (Hpw & certs & _ & _ & ->).
  split; [reflexivity|].
  unfold Server.options_with, Server.hashed_password. cbn [Server.opt_password].
  unfold Server.password_missing in Hpw.
  unfold Server.chosen_password, Server.or_else, Server.effective_auth,
    Server.default_auth in *.
  destruct args as [[[|]|] pw udd ed cfg crt ck so op pd];
    cbn [Server.auth Server.password Server.is_password andb] in *;
    try reflexivity;
    (destruct (truthy_string (process_env w "PASSWORD")) eqn:He;
     [ destruct (process_env w "PASSWORD") as [[|a s]|]; try discriminate He;
       exists (String a s); repeat split; discriminate
     | destruct pw as [[|a s]|]; try discriminate Hpw;
       exists (String a s); repeat split; discriminate ]).
Qed.

Lemma server_gets_hashed_password_witness :
  Server.opt_password
    (Server.options_with (world_with None true open_both) plain_collaborators
                         open_with_password (None, None))
  = Some "sha256:hunter2".
Proof.
  destruct (server_gets_hashed_password
              (world_with None true open_both) plain_collaborators
              open_with_password
              (Server.options_with (world_with None true open_both)
                                   plain_collaborators open_with_password
                                   (None, None)))
    as [_ (p & _ & Hp & Hsrc)].
  - right. right. left. reflexivity.
  - cbn in Hsrc. inversion Hsrc. subst p. exact Hp.
Defined.

(** X13. Whenever [main] constructs the HTTP server with a certificate,
    the options also carry a certificate key.  After [--cert] without a
    value the pair is the one [generateCertificate] returned; otherwise it
    is [args.cert.value] and [args["cert-key"]] as given. *)
Theorem server_certificate_comes_with_key
        (w : World) (c : Server.Collaborators) (args : Server.Args)
        (options : Server.HttpServerOptions) :
  In (Server.NewHttpServer options) (Server.events (Server.main w c args)) ->
  (truthy_string (Server.opt_cert options) = true ->
   truthy_string (Server.opt_certKey options) = true)
  /\ (Server.cert_without_value args = true ->
      exists crt key,
        Server.generated c = inr (crt, key)
        /\ Server.opt_cert options = Some crt
        /\ Server.opt_certKey options = Some key)
  /\ (Server.cert_without_value args = false ->
      Server.opt_cert options = Server.cert_value args
      /\ Server.opt_certKey options = Server.cert_key args).
Proof.
  intros Hin.
  destruct (constructed_options w c args options Hin)
    as (_ & certs & Hcerts & Hkey & ->).
  cbn [Server.options_with Server.opt_cert Server.opt_certKey].
  unfold Server.key_missing in Hkey. unfold Server.certificate_pair in Hcerts.
  split; [|split].
  - intros Hc. rewrite Hc in Hkey. cbn [andb] in Hkey.
    apply negb_false_iff in Hkey. exact Hkey.
  - intros Hv. rewrite Hv in Hcerts.
    destruct (Server.generated c) as [err|[crt key]]; [discriminate Hcerts|].
    exists crt, key. inversion Hcerts. repeat split.
  - intros Hv. rewrite Hv in Hcerts. inversion Hcerts. split; reflexivity.
Qed.

Lemma server_certificate_comes_with_key_witness :
  exists crt key,
    Server.generated plain_collaborators = inr (crt, key)
    /\ crt = "/tmp/code-server/self-signed.cert"
    /\ key = "/tmp/code-server/self-signed.key".
Proof.
  destruct (server_certificate_comes_with_key
              (world_with None true open_both) plain_collaborators cert_flag_alone
              (Server.options_with (world_with None true open_both)
                 plain_collaborators cert_flag_alone
                 (Some "/tmp/code-server/self-signed.cert",
                  Some "/tmp/code-server/self-signed.key")))
    as (_ & Hgen & _).
  - right. right. right. left. reflexivity.
  - destruct (Hgen eq_refl) as (crt & key & Hg & Hc & Hk).
    exists crt, key. split; [exact Hg|].
    inversion Hc. inversion Hk. split; reflexivity.
Defined.

(** X14. When the password check passes and [--cert] names a certificate
    file but no non-empty [--cert-key] is given, [main] throws
    "--cert-key is missing" after its two opening log lines: no certificate
    is generated and no server is constructed. *)
Theorem main_requires_cert_key
        (w : World) (c : Server.Collaborators) (args : Server.Args) :
  Server.password_missing w args = false ->
  truthy_string (Server.cert_value args) = true ->
  truthy_string (Server.cert_key args) = false ->
  Server.main w c args
  = (Server.greeting c args, Thrown "--cert-key is missing").
Proof.
  intros Hpw Hc Hk. rewrite main_cases, Hpw.
  unfold Server.certificate_pair, Server.certificate_events, Server.key_missing,
    Server.cert_without_value, Server.cert_value in *.
  destruct (Server.cert args) as [v|]; [|discriminate Hc].
  rewrite Hc. cbn [negb fst snd]. rewrite Hc, Hk. cbn [negb andb].
  rewrite app_nil_r. reflexivity.
Qed.

Lemma main_requires_cert_key_witness :
  Server.main (world_with None true open_both) plain_collaborators cert_without_key
  = ([Server.Logged Info "Using user-data-dir ";
      Server.Traced "Using extensions-dir "],
     Thrown "--cert-key is missing").
Proof.
  exact (main_requires_cert_key (world_with None true open_both)
           plain_collaborators cert_without_key eq_refl eq_refl eq_refl).
Defined.

Lemma filter_steps (p : Server.Event -> bool) (w : World) (c : Server.Collaborators)
      (args : Server.Args) :
  (forall e, p e = true -> Server.is_step e = true) ->
  filter p (Server.events (Server.main w c args)) = filter p (Server.steps w c args).
Proof.
  intros H. rewrite <- main_steps, filter_filter_implied by exact H. reflexivity.
Qed.

Ltac steps_cases w c args :=
  unfold Server.steps, Server.certificate_events;
  destruct (Server.password_missing w args) eqn:Hpassword;
  destruct (Server.cert_without_value args) eqn:Hvalue;
  destruct (Server.certificate_pair c args) as [?err|certs] eqn:Hcerts;
  try destruct (Server.key_missing certs) eqn:Hkey;
  destruct (Server.construct_throws c) as [?err|] eqn:Hconstruct;
  destruct (Server.loadPlugins_rejects c) as [?err|] eqn:Hplugins;
  destruct (Server.listen_result c) as [?err|[address|]] eqn:Hlisten;
  try destruct (Server.opens_browser args (Some address)) eqn:Hopen.

(** X15. [main] calls [generateCertificate] at most once, and exactly when
    the password check has passed and [--cert] was given without a
    (non-empty) value; a certificate named on the command line is never
    replaced by a generated one. *)
Theorem certificate_generated_iff
        (w : World) (c : Server.Collaborators) (args : Server.Args) :
  filter Server.is_generate (Server.events (Server.main w c args))
  = if negb (Server.password_missing w args) && Server.cert_without_value args
    then [Server.GenerateCertificate]
    else [].
Proof.
  rewrite filter_steps by (intros [] H; try discriminate H; reflexivity).
  steps_cases w c args; reflexivity.
Qed.

(** How far [main] must have come for [listen()] to be called. *)
Lemma listen_reached (w : World) (c : Server.Collaborators) (args : Server.Args) :
  In Server.Listen (Server.events (Server.main w c args))
  <-> Server.password_missing w args = false
      /\ (exists certs, Server.certificate_pair c args = inr certs
                        /\ Server.key_missing certs = false)
      /\ Server.construct_throws c = None
      /\ Server.loadPlugins_rejects c = None.
Proof.
  rewrite step_in_main by reflexivity. split.
  - steps_cases w c args; cbn [app In]; intros H;
      try (exfalso; intuition discriminate);
      (split; [reflexivity|]);
      (split; [exists certs; split; [reflexivity | exact Hkey]|]);
      split; reflexivity.
  - intros (Hpw & (certs & Hc & Hk) & Hn & Hl).
    unfold Server.steps. rewrite Hpw, Hc, Hk, Hn, Hl.
    apply in_or_app. right. right. right. right. left. reflexivity.
Qed.

Lemma main_completes_when (w : World) (c : Server.Collaborators) (args : Server.Args) :
  Server.result (Server.main w c args) = Returned tt
  <-> In Server.Listen (Server.events (Server.main w c args))
      /\ exists serverAddress, Server.listen_result c = inr serverAddress.
Proof.
  rewrite listen_reached. split.
  - main_branches w c args; intros H; try discriminate H.
    split; [|exists serverAddress; reflexivity].
    split; [reflexivity|]. split; [|split; reflexivity].
    exists certs. split; [reflexivity | exact Hkey].
  - intros ((Hpw & (certs & Hc & Hk) & Hn & Hl) & (serverAddress & Ha)).
    rewrite main_cases, Hpw, Hc. cbv zeta. rewrite Hk, Hn, Hl, Ha. reflexivity.
Qed.

(** X16. [main] completes exactly when it got as far as [listen()] and
    that call resolved, that is: the password check passed, a certificate
    pair with its key (or no certificate) is at hand, and constructing the
    server, loading the plugins and listening all succeeded.  Nothing after
    that can make it fail; in particular a browser that cannot be opened
    does not. *)
Theorem main_completes_iff
        (w : World) (c : Server.Collaborators) (args : Server.Args) :
  (Server.result (Server.main w c args) = Returned tt
   <-> In Server.Listen (Server.events (Server.main w c args))
       /\ exists serverAddress, Server.listen_result c = inr serverAddress)
  /\ (Server.result (Server.main w c args) = Returned tt
      <-> Server.password_missing w args = false
          /\ (exists certs, Server.certificate_pair c args = inr certs
                            /\ Server.key_missing certs = false)
          /\ Server.construct_throws c = None
          /\ Server.loadPlugins_rejects c = None
          /\ exists serverAddress, Server.listen_result c = inr serverAddress).
Proof.
  split; [apply main_completes_when|].
  rewrite main_completes_when, listen_reached. tauto.
Qed.

Lemma main_completes_iff_witness :
  Server.result (Server.main (world_with None true open_both) plain_collaborators
                             open_with_password)
  = Returned tt.
Proof.
  apply (proj2 (proj1 (main_completes_iff (world_with None true open_both)
                         plain_collaborators open_with_password))).
  split.
  - do 12 right. left. reflexivity.
  - exists (Some "http://0.0.0.0:8080"). reflexivity.
Defined.

Lemma open_lines_quiet (c : Server.Collaborators) (args : Server.Args)
      (serverAddress : option string) :
  forallb (fun e => Server.is_log e || Server.is_delete_env e || Server.is_open_browser e)
          (Server.open_lines c args serverAddress) = true.
Proof.
  unfold Server.open_lines. destruct serverAddress as [address|]; [|reflexivity].
  destruct (Server.opens_browser args (Some address)); [|reflexivity].
  destruct (Server.open_rejects c); reflexivity.
Qed.

Lemma forallb_weaken {A : Type} (p q : A -> bool) (l : list A) :
  (forall x, p x = true -> q x = true) ->
  forallb p l = true -> forallb q l = true.
Proof.
  intros H. induction l as [|x l IH]; [reflexivity|].
  cbn [forallb]. intros Hl. apply andb_prop in Hl as [Hx Hl].
  rewrite (H x Hx), (IH Hl). reflexivity.
Qed.

Lemma report_quiet (w : World) (c : Server.Collaborators) (args : Server.Args)
      (serverAddress : option string) :
  forallb (fun e => Server.is_log e || Server.is_delete_env e || Server.is_open_browser e)
          (Server.report w c args serverAddress) = true.
Proof.
  assert (Hw : forall e, Server.is_log e = true ->
                         Server.is_log e || Server.is_delete_env e
                         || Server.is_open_browser e = true)
    by (intros e ->; reflexivity).
  unfold Server.report. cbn [forallb]. rewrite forallb_app.
  rewrite (forallb_weaken _ _ _ Hw (auth_lines_logs w c args)).
  cbn [forallb Server.is_log Server.is_delete_env orb andb Server.https_line].
  rewrite forallb_app, (forallb_weaken _ _ _ Hw (proxy_lines_logs c)).
  apply open_lines_quiet.
Qed.

(** X17. When [main] calls [listen()], it has before that, in this order,
    constructed the server, registered the six route providers (["/",
    "/vscode"], "/update", "/proxy", "/login", "/static", "/healthz"),
    loaded the plugins and registered its dispose hook; everything it does
    after [listen()] is writing log lines, deleting [PASSWORD] from the
    environment and opening the browser. *)
Theorem listens_after_setup
        (w : World) (c : Server.Collaborators) (args : Server.Args) :
  In Server.Listen (Server.events (Server.main w c args)) ->
  exists certs rest,
    Server.certificate_pair c args = inr certs
    /\ Server.events (Server.main w c args)
       = (Server.greeting c args ++ Server.certificate_events args
          ++ Server.setup w args (Server.options_with w c args certs) ++ rest)%list
    /\ forallb (fun e => Server.is_log e || Server.is_delete_env e
                         || Server.is_open_browser e) rest = true.
Proof.
  intros Hin. apply listen_reached in Hin.
  destruct Hin as (Hpw & (certs & Hc & Hk) & Hn & Hl).
  exists certs. rewrite main_cases, Hpw, Hc. cbv zeta. rewrite Hk, Hn, Hl.
  destruct (Server.listen_result c) as [err|serverAddress];
    cbn [Server.events fst].
  - exists []. rewrite app_nil_r, <- app_assoc. repeat split.
  - exists (Server.report w c args serverAddress).
    rewrite <- app_assoc. split; [reflexivity|]. split; [reflexivity|].
    apply report_quiet.
Qed.

Lemma listens_after_setup_witness :
  exists rest,
    Server.events (Server.main (world_with None true open_both) plain_collaborators
                               open_with_password)
    = (Server.greeting plain_collaborators open_with_password
       ++ Server.setup (world_with None true open_both) open_with_password
            (Server.options_with (world_with None true open_both)
               plain_collaborators open_with_password (None, None))
       ++ rest)%list.
Proof.
  destruct (listens_after_setup (world_with None true open_both)
              plain_collaborators open_with_password)
    as (certs & rest & Hc & He & _).
  - do 12 right. left. reflexivity.
  - exists rest. inversion Hc. subst certs. exact He.
Defined.

(** X18. [main] deletes [PASSWORD] from the environment exactly once when
    it completes and not at all when it fails; the deletion comes after
    [listen()], so the variable is still set while the server is
    constructed. *)
Theorem password_leaves_environment
        (w : World) (c : Server.Collaborators) (args : Server.Args) :
  filter Server.is_delete_env (Server.events (Server.main w c args))
  = match Server.result (Server.main w c args) with
    | Returned _ => [Server.DeleteEnv "PASSWORD"]
    | _ => []
    end
  /\ (Server.result (Server.main w c args) = Returned tt ->
      exists pre post,
        Server.events (Server.main w c args) = (pre ++ Server.Listen :: post)%list
        /\ filter Server.is_delete_env pre = []
        /\ In (Server.DeleteEnv "PASSWORD") post).
Proof.
  split.
  - rewrite filter_steps by (intros [] H; try discriminate H; reflexivity).
    rewrite main_cases. unfold Server.certificate_events.
    steps_cases w c args; reflexivity.
  - intros Hr. apply main_completes_when in Hr. destruct Hr as (Hin & a & Ha).
    apply listen_reached in Hin.
    destruct Hin as (Hpw & (certs & Hc & Hk) & Hn & Hl).
    rewrite main_cases, Hpw, Hc. cbv zeta. rewrite Hk, Hn, Hl, Ha.
    cbn [Server.events fst].
    exists (Server.greeting c args ++ Server.certificate_events args
            ++ Server.NewHttpServer (Server.options_with w c args certs)
            :: Server.registrations w args
            ++ [Server.LoadPlugins (Server.default_auth args); Server.OnDispose;
                Server.Logged Info ("code-server " ++ version w ++ " " ++ commit w)])%list,
           (Server.report w c args a).
    split; [|split].
    + unfold Server.setup. rewrite <- !app_assoc. cbn [app].
      rewrite <- !app_assoc. reflexivity.
    + rewrite !filter_app. unfold Server.certificate_events, Server.registrations.
      destruct (Server.cert_without_value args); reflexivity.
    + unfold Server.report. right. apply in_or_app. right. left. reflexivity.
Qed.

Lemma password_leaves_environment_witness :
  filter Server.is_delete_env
         (Server.events (Server.main (world_with None true open_both)
                                     plain_collaborators open_with_password))
  = [Server.DeleteEnv "PASSWORD"].
Proof.
  rewrite (proj1 (password_leaves_environment (world_with None true open_both)
                    plain_collaborators open_with_password)).
  reflexivity.
Defined.

Lemma truthy_string_nonempty (s : string) :
  truthy_string (Some s) = true <-> s <> "".
Proof.
  destruct s; cbn; split; intros H; try discriminate; try reflexivity.
  contradiction H. reflexivity.
Qed.

(** X19. [main] opens the browser at most once, and only as its last act:
    after everything else succeeded, when [listen()] gave a non-empty
    address, no [socket] is configured and [--open] is set.  The address
    opened is the listening address with the first "://0.0.0.0" turned into
    "://localhost"; whether or not opening fails, "Opened <address>" is
    logged and [main] completes. *)
Theorem browser_opened_iff
        (w : World) (c : Server.Collaborators) (args : Server.Args)
        (opened : string) :
  (In (Server.OpenBrowser opened) (Server.events (Server.main w c args))
   <-> Server.result (Server.main w c args) = Returned tt
       /\ exists address,
            Server.listen_result c = inr (Some address)
            /\ address <> ""
            /\ truthy_string (Server.socket args) = false
            /\ truthy (Server.open args) = true
            /\ opened = Server.open_address address)
  /\ (In (Server.OpenBrowser opened) (Server.events (Server.main w c args)) ->
      In (Server.Logged Info ("Opened " ++ opened))
         (Server.events (Server.main w c args)))
  /\ (length (filter Server.is_open_browser (Server.events (Server.main w c args)))
      <= 1)%nat.
Proof.
  assert (Hiff :
            In (Server.OpenBrowser opened) (Server.events (Server.main w c args))
            <-> Server.result (Server.main w c args) = Returned tt
                /\ exists address,
                     Server.listen_result c = inr (Some address)
                     /\ Server.opens_browser args (Some address) = true
                     /\ opened = Server.open_address address).
  { rewrite step_in_main by reflexivity. rewrite main_cases.
    unfold Server.certificate_events. split.
    - steps_cases w c args; cbn [app In Server.result snd]; intros H;
        try (exfalso; intuition discriminate).
      all: split; [reflexivity|]; exists address;
        split; [reflexivity|]; split; [exact Hopen|];
        intuition congruence.
    - intros (Hr & address & Ha & Ho & ->). revert Hr.
      unfold Server.steps, Server.certificate_events. rewrite Ha, Ho.
      destruct (Server.password_missing w args); [discriminate|].
      destruct (Server.certificate_pair c args) as [err|certs]; [discriminate|].
      cbv zeta. destruct (Server.key_missing certs); [discriminate|].
      destruct (Server.construct_throws c); [discriminate|].
      destruct (Server.loadPlugins_rejects c); [discriminate|].
      intros _. apply in_or_app. right. do 5 right. left. reflexivity. }
  split; [|split].
  - rewrite Hiff. unfold Server.opens_browser.
    split; intros (Hr & address & Ha & H); (split; [exact Hr|]);
      exists address; (split; [exact Ha|]).
    + destruct H as (Ho & ->).
      apply andb_prop in Ho as [Ho Hopen]. apply andb_prop in Ho as [Haddr Hsock].
      apply negb_true_iff in Hsock. apply truthy_string_nonempty in Haddr.
      repeat split; assumption.
    + destruct H as (Haddr & Hsock & Hopen & ->).
      apply truthy_string_nonempty in Haddr. rewrite Haddr, Hsock, Hopen.
      split; reflexivity.
  - intros Hin. apply Hiff in Hin. destruct Hin as (Hr & address & Ha & Ho & ->).
    apply main_completes_when in Hr. destruct Hr as (Hl & _).
    apply listen_reached in Hl.
    destruct Hl as (Hpw & (certs & Hc & Hk) & Hn & Hp).
    rewrite main_cases, Hpw, Hc. cbv zeta. rewrite Hk, Hn, Hp, Ha.
    cbn [Server.events fst]. apply in_or_app. right. apply in_or_app. right.
    unfold Server.report. right. apply in_or_app. right. right. right.
    apply in_or_app. right. unfold Server.open_lines. rewrite Ho.
    right. apply in_or_app. right. left. reflexivity.
  - rewrite filter_steps by (intros [] H; try discriminate H; reflexivity).
    steps_cases w c args; cbn; lia.
Qed.

Lemma browser_opened_iff_witness :
  In (Server.OpenBrowser "http://localhost:8080")
     (Server.events (Server.main (world_with None true open_both)
                                 plain_collaborators open_with_password))
  /\ In (Server.Logged Info "Opened http://localhost:8080")
        (Server.events (Server.main (world_with None true open_both)
                                    plain_collaborators open_with_password)).
Proof.
  destruct (browser_opened_iff (world_with None true open_both)
              plain_collaborators open_with_password "http://localhost:8080")
    as (Hiff & Hlog & _).
  assert (Hin : In (Server.OpenBrowser "http://localhost:8080")
                   (Server.events (Server.main (world_with None true open_both)
                                               plain_collaborators
                                               open_with_password))).
  { apply Hiff. split; [reflexivity|].
    exists "http://0.0.0.0:8080".
    split; [reflexivity|]. split; [discriminate|]. repeat split. }
  split; [exact Hin | exact (Hlog Hin)].
Defined.

Lemma replace_first_skips (pat : list Server.PatternItem) (replacement : string)
      (d : Ascii.ascii) (s : string) :
  Server.match_here pat (String d s) = None ->
  Server.replace_first pat replacement (String d s)
  = String d (Server.replace_first pat replacement s).
Proof. intros H. cbn [Server.replace_first]. rewrite H. reflexivity. Qed.

(** X20. The address handed to the browser: with no [":"] before it, the
    first "://0?0?0?0" (the dots of the pattern match any character but a
    line break, so "0.0.0.0" is one instance among others) is replaced by
    "://localhost" and what follows is left as it is, later occurrences
    included; an address without [":"] is not changed. *)
Theorem open_address_rewrites_any_host :
  (forall (scheme rest : string) (a b c : Ascii.ascii),
     Server.has_colon scheme = false ->
     Server.line_terminator a = false ->
     Server.line_terminator b = false ->
     Server.line_terminator c = false ->
     Server.open_address
       (scheme ++ "://0" ++ String a ("0" ++ String b ("0" ++ String c ("0" ++ rest))))
     = scheme ++ "://localhost" ++ rest)
  /\ (forall address : string,
        Server.has_colon address = false ->
        Server.open_address address = address).
Proof.
  unfold Server.open_address. split.
  - intros scheme rest a b c Hs Ha Hb Hc.
    remember ("://0" ++ String a ("0" ++ String b ("0" ++ String c ("0" ++ rest))))
      as found eqn:Hfound.
    induction scheme as [|d scheme IH].
    + subst found.
      cbn [append Server.replace_first Server.match_here Server.any_host_pattern
           Ascii.eqb Bool.eqb].
      rewrite Ha, Hb, Hc. reflexivity.
    + cbn [Server.has_colon] in Hs. apply orb_false_elim in Hs as [Hd Hs].
      cbn [append]. rewrite replace_first_skips.
      * rewrite (IH Hs). reflexivity.
      * unfold Server.any_host_pattern. cbn [Server.match_here]. rewrite Hd.
        reflexivity.
  - intros address Hs. induction address as [|d address IH]; [reflexivity|].
    cbn [Server.has_colon] in Hs. apply orb_false_elim in Hs as [Hd Hs].
    rewrite replace_first_skips.
    + rewrite (IH Hs). reflexivity.
    + unfold Server.any_host_pattern. cbn [Server.match_here]. rewrite Hd.
      reflexivity.
Qed.

Lemma open_address_rewrites_any_host_witness :
  Server.open_address "http://0.0.0.0:8080/?folder=x://0.0.0.0"
  = "http://localhost:8080/?folder=x://0.0.0.0"
  /\ Server.open_address "localhost" = "localhost".
Proof.
  split.
  - exact (proj1 open_address_rewrites_any_host
             "http" ":8080/?folder=x://0.0.0.0"
             (Ascii.Ascii false true true true false true false false)
             (Ascii.Ascii false true true true false true false false)
             (Ascii.Ascii false true true true false true false false)
             eq_refl eq_refl eq_refl eq_refl).
  - exact (proj2 open_address_rewrites_any_host "localhost" eq_refl).
Defined.
